(** * NutriNova: a shallow embedding of [nutrinova_app.py]

    The application is a Streamlit page wired to three services: the USDA
    food database (through [requests]), a chat-completion service (through
    the [openai] client) and a chart renderer (through [pandas] and
    [plotly]).  Its only arithmetic is the MET calorie formula.

    The embedding keeps Python's dynamic values, its exceptions and its
    binary64 arithmetic; the services appear as events of a finite
    interaction tree whose answers are chosen by the environment. *)

From Stdlib Require Import ZArith List String Ascii Bool Lia DecimalString.
From Stdlib Require Import Floats.
Import ListNotations.

Local Open Scope string_scope.
Local Open Scope Z_scope.

#[local] Set Warnings "-register-all,-inexact-float".

(** ** Python values *)

(** The values the page handles: what [json] decoding produces ([None],
    [bool], [int], [float], [str], [list], [dict]) and what the functions
    return.  A [dict] keeps its items in insertion order. *)
Inductive value : Type :=
| VNone
| VBool (b : bool)
| VInt (z : Z)
| VFloat (f : float)
| VStr (s : string)
| VList (l : list value)
| VDict (d : list (value * value)).

Definition dict : Type := list (value * value).

(** ** Exceptions *)

Inductive exn_class : Type :=
| TypeError | KeyError | IndexError | ValueError | OverflowError
| JSONDecodeError | RequestException | OpenAIError
| KeyboardInterrupt | SystemExit.

(** [isinstance(e, Exception)]: the two interpreter signals derive from
    [BaseException] only. *)
Definition is_Exception (c : exn_class) : bool :=
  match c with
  | KeyboardInterrupt | SystemExit => false
  | _ => true
  end.

(** An exception object; [exn_str] is what [str(e)] gives.  For the
    errors the interpreter raises inside the model, the class is what the
    page can depend on; the text is reproduced for [KeyError], unhashable
    keys and [IndexError], and is indicative for the other [TypeError]s,
    whose wording changes between Python versions. *)
Record exn : Type := Exn { exn_type : exn_class; exn_str : string }.

(** The outcome of a Python call. *)
Inductive outcome (A : Type) : Type :=
| Ok (a : A)
| Err (e : exn).
Arguments Ok {A} a.
Arguments Err {A} e.

Definition obind {A B} (o : outcome A) (k : A -> outcome B) : outcome B :=
  match o with
  | Ok a => k a
  | Err e => Err e
  end.

(** ** binary64 arithmetic *)

Module Float64.

(** [float(n)] for an [int]: correctly rounded (ties to even), and
    [OverflowError] when the result does not fit. *)
Definition of_int (z : Z) : outcome float :=
  match binary_normalize prec emax z 0 false with
  | S754_infinity _ =>
      Err (Exn OverflowError "int too large to convert to float")
  | sf => Ok (SF2Prim sf)
  end.

(** Nearest integer to [a / b], ties to the even one ([0 <= a], [0 < b]). *)
Definition div_half_even (a b : Z) : Z :=
  let q := a / b in
  match (2 * (a mod b)) ?= b with
  | Lt => q
  | Gt => q + 1
  | Eq => if Z.even q then q else q + 1
  end.

(** The integer [k] such that [k / 100] is the decimal with two places
    nearest to [m * 2^e], ties to even: the digits [dtoa] hands back in
    mode 3. *)
Definition hundredths (m : positive) (e : Z) : Z :=
  if 0 <=? e then Zpos m * 2 ^ e * 100
  else div_half_even (Zpos m * 100) (2 ^ (- e)).

(** [round(x, 2)] on a [float]: CPython prints the exact binary value
    with two decimals (correctly rounded, ties to even) and reads the
    digits back with a correctly rounded [strtod]; zeros, infinities and
    NaN round to themselves. *)
Definition round2 (x : float) : float :=
  match Prim2SF x with
  | S754_finite s m e =>
      match hundredths m e with
      | Zpos k =>
          SF2Prim (SFdiv prec emax (S754_finite s k 0)
                                   (S754_finite false 100 0))
      | _ => SF2Prim (S754_zero s)
      end
  | _ => x
  end.

(** The integer a float denotes, when it denotes one. *)
Definition to_int_exact (x : float) : option Z :=
  match Prim2SF x with
  | S754_zero _ => Some 0
  | S754_finite s m e =>
      if 0 <=? e then Some (cond_Zopp s (Zpos m * 2 ^ e))
      else if (Zpos m mod 2 ^ (- e)) =? 0
           then Some (cond_Zopp s (Zpos m / 2 ^ (- e)))
           else None
  | _ => None
  end.

End Float64.

(** ** Numbers, truth, equality of keys *)

Inductive number : Type :=
| NInt (z : Z)
| NFloat (f : float).

(** The numeric reading of a value ([bool] is a subclass of [int]). *)
Definition as_number (v : value) : option number :=
  match v with
  | VBool b => Some (NInt (if b then 1 else 0))
  | VInt z => Some (NInt z)
  | VFloat f => Some (NFloat f)
  | _ => None
  end.

(** [==] on numbers compares the exact values. *)
Definition number_eqb (a b : number) : bool :=
  match a, b with
  | NInt x, NInt y => x =? y
  | NFloat x, NFloat y => PrimFloat.eqb x y
  | NInt x, NFloat y | NFloat y, NInt x =>
      match Float64.to_int_exact y with
      | Some z => x =? z
      | None => false
      end
  end.

Definition hashable (v : value) : bool :=
  match v with
  | VList _ | VDict _ => false
  | _ => true
  end.

(** Equality of two hashable values, as a [dict] sees its keys: [None]
    with [None], strings by their characters, numbers ([bool] included) by
    their exact value.  A NaN equals no other key; that a key is always
    found again through the very object it was stored under is not
    modelled. *)
Definition key_eqb (a b : value) : bool :=
  match a, b with
  | VNone, VNone => true
  | VStr s, VStr t => String.eqb s t
  | _, _ =>
      match as_number a, as_number b with
      | Some x, Some y => number_eqb x y
      | _, _ => false
      end
  end.

(** [bool(v)]. *)
Definition truthy (v : value) : bool :=
  match v with
  | VNone => false
  | VBool b => b
  | VInt z => negb (z =? 0)
  | VFloat f => negb (PrimFloat.eqb f 0)
  | VStr s => negb (String.eqb s "")
  | VList l => match l with [] => false | _ => true end
  | VDict d => match d with [] => false | _ => true end
  end.

(** ** Containers *)

Fixpoint dict_find (k : value) (d : dict) : option value :=
  match d with
  | [] => None
  | (k', v) :: d' => if key_eqb k' k then Some v else dict_find k d'
  end.

(** [type(v).__name__]. *)
Definition type_name (v : value) : string :=
  match v with
  | VNone => "NoneType"
  | VBool _ => "bool"
  | VInt _ => "int"
  | VFloat _ => "float"
  | VStr _ => "str"
  | VList _ => "list"
  | VDict _ => "dict"
  end.

Definition unhashable (k : value) : exn :=
  Exn TypeError ("unhashable type: '" ++ type_name k ++ "'").

Definition hex_digit (n : N) : ascii :=
  match n with
  | 0%N => "0" | 1%N => "1" | 2%N => "2" | 3%N => "3" | 4%N => "4"
  | 5%N => "5" | 6%N => "6" | 7%N => "7" | 8%N => "8" | 9%N => "9"
  | 10%N => "a" | 11%N => "b" | 12%N => "c" | 13%N => "d" | 14%N => "e"
  | _ => "f"
  end%char.

(** One character of a string inside [repr]: the quote in use and the
    backslash are escaped, so are the control characters; the bytes of a
    character outside ASCII are kept. *)
Definition repr_char (quote c : ascii) : string :=
  let n := N_of_ascii c in
  let backslash := "092"%char in
  let escaped (e : ascii) := String backslash (String e EmptyString) in
  if Ascii.eqb c quote || Ascii.eqb c backslash then escaped c
  else if (n =? 10)%N then escaped "n"%char
  else if (n =? 13)%N then escaped "r"%char
  else if (n =? 9)%N then escaped "t"%char
  else if (n <? 32)%N || (n =? 127)%N
       then String backslash
              (String "x"%char
                 (String (hex_digit (n / 16))
                    (String (hex_digit (n mod 16)) EmptyString)))
  else String c EmptyString.

Fixpoint has_char (c : ascii) (s : string) : bool :=
  match s with
  | EmptyString => false
  | String c' s' => Ascii.eqb c c' || has_char c s'
  end.

Fixpoint repr_chars (quote : ascii) (s : string) : string :=
  match s with
  | EmptyString => EmptyString
  | String c s' => repr_char quote c ++ repr_chars quote s'
  end.

(** [repr(s)] for a string: single quotes, unless the string holds a
    single quote and no double one. *)
Definition str_repr (s : string) : string :=
  let single := "039"%char in
  let double := "034"%char in
  let quote := if has_char single s && negb (has_char double s)
               then double else single in
  String quote (repr_chars quote s ++ String quote EmptyString).

(** [repr(k)] of a hashable key, the text of a [KeyError].  The digits of
    a float are not worked out: its class name stands for them. *)
Definition key_repr (k : value) : string :=
  match k with
  | VNone => "None"
  | VBool true => "True"
  | VBool false => "False"
  | VInt z => NilZero.string_of_int (Z.to_int z)
  | VStr s => str_repr s
  | _ => type_name k
  end.

(** [k in d]. *)
Definition dict_contains (k : value) (d : dict) : outcome bool :=
  if hashable k
  then Ok (match dict_find k d with Some _ => true | None => false end)
  else Err (unhashable k).

(** [d[k]]. *)
Definition dict_getitem (k : value) (d : dict) : outcome value :=
  if hashable k
  then match dict_find k d with
       | Some v => Ok v
       | None => Err (Exn KeyError (key_repr k))
       end
  else Err (unhashable k).

(** [d[k] = v]: a key already present keeps its place and takes the new
    value. *)
Fixpoint dict_set (k v : value) (d : dict) : dict :=
  match d with
  | [] => [(k, v)]
  | (k', v') :: d' =>
      if key_eqb k' k then (k', v) :: d' else (k', v') :: dict_set k v d'
  end.

Definition dict_setitem (k v : value) (d : dict) : outcome dict :=
  if hashable k then Ok (dict_set k v d) else Err (unhashable k).

(** A byte that continues a UTF-8 sequence: [10xxxxxx]. *)
Definition is_continuation (c : ascii) : bool :=
  match c with
  | Ascii _ _ _ _ _ _ false true => true
  | _ => false
  end.

(** The characters of a string: a [str] is a sequence of code points, held
    here as its UTF-8 bytes, so each leading byte is taken with the
    continuation bytes after it. *)
Fixpoint code_points (s : string) : list string :=
  match s with
  | EmptyString => []
  | String c rest =>
      let continued :=
        match rest with
        | String c' _ => is_continuation c'
        | EmptyString => false
        end in
      match continued, code_points rest with
      | true, p :: ps => String c p :: ps
      | _, ps => String c EmptyString :: ps
      end
  end.

Definition chars (s : string) : list value := map VStr (code_points s).

(** [sub in s] for two strings. *)
Fixpoint is_substring (sub s : string) : bool :=
  String.prefix sub s ||
  match s with
  | EmptyString => false
  | String _ s' => is_substring sub s'
  end.

Definition not_subscriptable : exn := Exn TypeError "object is not subscriptable".

(** [key in v] for a string [key]. *)
Definition py_contains (key : string) (v : value) : outcome bool :=
  match v with
  | VDict d => dict_contains (VStr key) d
  | VList l => Ok (existsb (key_eqb (VStr key)) l)
  | VStr s => Ok (is_substring key s)
  | _ => Err (Exn TypeError "argument is not iterable")
  end.

(** [v[key]] for a string [key]. *)
Definition py_getitem (v : value) (key : string) : outcome value :=
  match v with
  | VDict d => dict_getitem (VStr key) d
  | VList _ => Err (Exn TypeError "list indices must be integers or slices, not str")
  | VStr _ => Err (Exn TypeError "string indices must be integers, not 'str'")
  | _ => Err not_subscriptable
  end.

(** [len(v)]. *)
Definition py_len (v : value) : outcome Z :=
  match v with
  | VList l => Ok (Z.of_nat (List.length l))
  | VDict d => Ok (Z.of_nat (List.length d))
  | VStr s => Ok (Z.of_nat (List.length (code_points s)))
  | _ => Err (Exn TypeError "object has no len()")
  end.

(** [v[:n]].  A [dict] has no slices: the attempt raises (a [TypeError];
    a [KeyError] from Python 3.12 on). *)
Definition py_slice_to (n : nat) (v : value) : outcome value :=
  match v with
  | VList l => Ok (VList (firstn n l))
  | VStr s => Ok (VStr (String.concat "" (firstn n (code_points s))))
  | VDict _ => Err (Exn TypeError "unhashable type: 'slice'")
  | _ => Err not_subscriptable
  end.

(** The items a [for] loop over [v] visits. *)
Definition py_iter (v : value) : outcome (list value) :=
  match v with
  | VList l => Ok l
  | VStr s => Ok (chars s)
  | VDict d => Ok (map fst d)
  | _ => Err (Exn TypeError "object is not iterable")
  end.

(** ** Float arithmetic on values *)

(** The operand a binary operation with a [float] on the other side
    works on: numbers are converted, anything else is a [TypeError]. *)
Definition to_float (v : value) : outcome float :=
  match as_number v with
  | Some (NInt z) => Float64.of_int z
  | Some (NFloat f) => Ok f
  | None => Err (Exn TypeError "unsupported operand type(s)")
  end.

(** [v * f] with [f] a float. *)
Definition mul_float (v : value) (f : float) : outcome float :=
  obind (to_float v) (fun x => Ok (x * f)%float).

(** [f * v] with [f] a float. *)
Definition float_mul (f : float) (v : value) : outcome float :=
  obind (to_float v) (fun x => Ok (f * x)%float).

(** ** The services and the page, as events *)

(** What [requests.get] hands back: the status code, and the outcome of
    calling [.json()] on the body. *)
Record response : Type := { status_code : Z; json : outcome value }.

Record chat_message : Type := { role : string; content : string }.

Record chat_request : Type :=
  { model : string;
    messages : list chat_message;
    temperature : float;
    max_tokens : Z }.

(** A completion: [choices[i].message.content] is a [str] or [None]. *)
Record choice : Type := { message_content : value }.
Record completion : Type := { choices : list choice }.

(** One row of a long-form table. *)
Record long_row : Type := { Food : value; Nutrient : value; Amount : value }.

(** The figure of [px.bar]. *)
Record figure : Type :=
  { data_frame : list long_row;
    fig_x : string; fig_y : string; fig_color : string; fig_barmode : string }.

Inductive event : Type -> Type :=
| requests_get (url : string) : event (outcome response)
| chat_completions_create (req : chat_request) : event (outcome completion)
| st_text_input (label default : string) : event string
| st_selectbox (label : string) (options : list value) : event value
| st_number_input (label : string) (min_value max_value default : Z) : event Z
| st_button (label : string) : event bool
| st_success (body : string) : event unit
| st_error (body : string) : event unit
| st_write (body : value) : event unit
| st_subheader (body : string) : event unit
| st_json (body : value) : event unit
| st_plotly_chart (fig : figure) : event unit.

(** A run of the page: a finite tree of events, the environment choosing
    each answer. *)
Inductive prog (A : Type) : Type :=
| Ret (a : A)
| Vis {X : Type} (ev : event X) (k : X -> prog A).
Arguments Ret {A} a.
Arguments Vis {A X} ev k.

Fixpoint pbind {A B} (p : prog A) (f : A -> prog B) : prog B :=
  match p with
  | Ret a => f a
  | Vis ev k => Vis ev (fun r => pbind (k r) f)
  end.

(** ** Module state *)

(** The module-level names: the two keys read from the environment
    ([None] when unset) and the MET table. *)
Record globals : Type :=
  { USDA_API_KEY : option string;
    OPENAI_API_KEY : option string;
    EXERCISE_MET : dict }.

(** A Python computation: it starts from the module state, may perform
    events, and ends with a value or an exception and the state it left. *)
Definition M (A : Type) : Type := globals -> prog (outcome A * globals).

Definition ret {A} (a : A) : M A := fun g => Ret (Ok a, g).

Definition raise {A} (e : exn) : M A := fun g => Ret (Err e, g).

Definition bind {A B} (m : M A) (f : A -> M B) : M B :=
  fun g => pbind (m g) (fun r =>
    match fst r with
    | Ok a => f a (snd r)
    | Err e => Ret (Err e, snd r)
    end).

Definition lift {A} (o : outcome A) : M A := fun g => Ret (o, g).

Definition trigger {X} (ev : event X) : M X :=
  fun g => Vis ev (fun r => Ret (Ok r, g)).

(** Reading a module-level name. *)
Definition global {A} (name : globals -> A) : M A := fun g => Ret (Ok (name g), g).

(** [try: body / except Exception as e: handler e]. *)
Definition try_except {A} (body : M A) (handler : exn -> M A) : M A :=
  fun g => pbind (body g) (fun r =>
    match fst r with
    | Ok a => Ret (Ok a, snd r)
    | Err e => if is_Exception (exn_type e) then handler e (snd r)
               else Ret (Err e, snd r)
    end).

Declare Scope py_scope.
Delimit Scope py_scope with py.
Notation "x <- m ;; k" := (bind m (fun x => k))
  (at level 61, m at next level, right associativity) : py_scope.
Notation "m ;; k" := (bind m (fun _ => k))
  (at level 61, right associativity) : py_scope.
Local Open Scope py_scope.

(** ** The MET table and the calorie estimate *)

Definition EXERCISE_MET_table : dict :=
  [ (VStr "Running (6 mph)", VFloat 9.8);
    (VStr "Cycling (moderate)", VFloat 7.5);
    (VStr "Walking (brisk)", VFloat 3.8);
    (VStr "Swimming", VFloat 6.0);
    (VStr "Yoga", VFloat 2.5);
    (VStr "Weightlifting", VFloat 6.0) ].

(** The module state after import. *)
Definition module_state (usda openai : option string) : globals :=
  {| USDA_API_KEY := usda;
     OPENAI_API_KEY := openai;
     EXERCISE_MET := EXERCISE_MET_table |}.

(** [met * 3.5 * weight_kg / 200 * duration_min]. *)
Definition met_formula (met weight_kg duration_min : value) : outcome float :=
  obind (mul_float met 3.5) (fun a =>
  obind (float_mul a weight_kg) (fun b =>
  float_mul (b / 200) duration_min)).

Definition calculate_calories_burned
    (weight_kg exercise duration_min : value) : M value :=
  table <- global EXERCISE_MET ;;
  known <- lift (dict_contains exercise table) ;;
  if negb known then ret (VInt 0)
  else
    table <- global EXERCISE_MET ;;
    met <- lift (dict_getitem exercise table) ;;
    calories <- lift (met_formula met weight_kg duration_min) ;;
    ret (VFloat (Float64.round2 calories)).

(** ** Food lookup *)

Definition usda_url (query : string) (key : option string) : string :=
  "https://api.nal.usda.gov/fdc/v1/foods/search?query=" ++ query
  ++ "&api_key=" ++ match key with Some k => k | None => "None" end.

Definition search_food_usda (query : string) : M value :=
  key <- global USDA_API_KEY ;;
  got <- trigger (requests_get (usda_url query key)) ;;
  response <- lift got ;;
  if status_code response =? 200 then
    data <- lift (json response) ;;
    present <- lift (py_contains "foods" data) ;;
    nonempty <- (if present
                 then foods <- lift (py_getitem data "foods") ;;
                      n <- lift (py_len foods) ;;
                      ret (n >? 0)
                 else ret false) ;;
    if nonempty then lift (py_getitem data "foods")
    else ret (VList [])
  else ret (VList []).

(** ** Narrative insight *)

Definition insight_request (prompt : string) : chat_request :=
  {| model := "gpt-4o-mini";
     messages :=
       [ {| role := "system";
            content := "You are a helpful nutrition and fitness assistant." |};
         {| role := "user"; content := prompt |} ];
     temperature := 0.7;
     max_tokens := 500 |}.

(** [l[0]]. *)
Definition first_item {A} (l : list A) : outcome A :=
  match l with
  | a :: _ => Ok a
  | [] => Err (Exn IndexError "list index out of range")
  end.

Definition get_ai_insight (prompt : string) : M value :=
  try_except
    (got <- trigger (chat_completions_create (insight_request prompt)) ;;
     response <- lift got ;;
     first <- lift (first_item (choices response)) ;;
     ret (message_content first))
    (fun e => ret (VStr ("AI API Error: " ++ exn_str e))).

(** ** Nutrient extraction *)

(** [{key_of(i): value_of(i) for i in items}], filling [acc]. *)
Fixpoint dict_comprehension (key_of value_of : value -> outcome value)
    (items : list value) (acc : dict) : outcome dict :=
  match items with
  | [] => Ok acc
  | i :: rest =>
      obind (key_of i) (fun k =>
      obind (value_of i) (fun v =>
      obind (dict_setitem k v acc) (fun acc' =>
      dict_comprehension key_of value_of rest acc')))
  end.

(** [{n["nutrientName"]: n["value"] for n in food_data["foodNutrients"][:5]}]. *)
Definition extract_nutrients (food_data : value) : outcome dict :=
  obind (py_getitem food_data "foodNutrients") (fun all =>
  obind (py_slice_to 5 all) (fun firsts =>
  obind (py_iter firsts) (fun ns =>
  dict_comprehension (fun n => py_getitem n "nutrientName")
                     (fun n => py_getitem n "value") ns []))).

(** ** The chart *)

(** A [DataFrame] with a default index: its columns in order, each a label
    and its cells. *)
Definition frame : Type := list (value * list value).

Definition has_column (label : string) (df : frame) : bool :=
  existsb (fun c => key_eqb (fst c) (VStr label)) df.

(** Missing data as [pandas] sees it: [None] and NaN. *)
Definition isna (v : value) : bool :=
  match v with
  | VNone => true
  | VFloat f => PrimFloat.is_nan f
  | _ => false
  end.

(** The long-form rows one nutrient column gives beside the food
    column. *)
Definition block (foods : list value) (c : value * list value) : list long_row :=
  map (fun fa => {| Food := fst fa; Nutrient := fst c; Amount := snd fa |})
      (combine foods (snd c)).

(** [df.melt(id_vars=id, var_name=.., value_name=value_name)]: the [id]
    column is repeated beside every other column, one block of rows per
    column, in column order.  A column already called [value_name] is
    refused, so is a frame without the [id] column, and so is one with
    two columns labelled [id].  The cells are carried over as the values
    they are: that pandas stores the stacked column under one dtype (an
    [int] beside a column of floats comes out as the float of the same
    value) is not modelled, nor are the texts of pandas' errors. *)
Definition melt (df : frame) (id value_name : string) : outcome (list long_row) :=
  if has_column value_name df
  then Err (Exn ValueError "value_name cannot match an element in the DataFrame columns.")
  else
    match filter (fun c => key_eqb (fst c) (VStr id)) df with
    | [] => Err (Exn KeyError "The following id_vars or value_vars are not present in the DataFrame")
    | [id_column] =>
        Ok (flat_map (block (snd id_column))
                     (filter (fun c => negb (key_eqb (fst c) (VStr id))) df))
    | _ :: _ :: _ => Err (Exn ValueError "id_vars column is not unique")
    end.

Definition plot_nutrition (nutrition_df : frame) : M unit :=
  long <- lift (melt nutrition_df "Food" "Amount") ;;
  trigger (st_plotly_chart
             {| data_frame := long;
                fig_x := "Nutrient"; fig_y := "Amount";
                fig_color := "Food"; fig_barmode := "group" |}).

(** [pd.DataFrame([nutrients], index=[selected_food]).reset_index()
      .rename(columns={"index": "Food"})]: one row; [reset_index] puts the
    index first, under the label ["index"], or ["level_0"] when a column is
    already called ["index"]. *)
Definition nutrition_frame (nutrients : dict) (selected_food : value)
  : outcome frame :=
  let columns := map (fun kv => (fst kv, [snd kv])) nutrients in
  let rename c :=
    (if key_eqb (fst c) (VStr "index") then VStr "Food" else fst c, snd c) in
  if negb (has_column "index" columns)
  then Ok (map rename ((VStr "index", [selected_food]) :: columns))
  else if negb (has_column "level_0" columns)
  then Ok (map rename ((VStr "level_0", [selected_food]) :: columns))
  else Err (Exn ValueError "cannot insert level_0, already exists").

(** ** The page *)

Section Page.

(** [str(v)], as the f-strings of the page apply it. *)
Variable py_str : value -> string.

Definition food_tab : M unit :=
  food_query <- trigger (st_text_input "Enter a food item:" "") ;;
  if truthy (VStr food_query) then
    foods <- search_food_usda food_query ;;
    if truthy foods then
      n <- lift (py_len foods) ;;
      trigger (st_success ("Found " ++ py_str (VInt n) ++ " results for **"
                           ++ food_query ++ "**")) ;;
      items <- lift (py_iter foods) ;;
      food_choices <- lift (dict_comprehension
                              (fun f => py_getitem f "description")
                              (fun f => Ok f) items []) ;;
      selected_food <- trigger (st_selectbox "Select a food:"
                                             (map fst food_choices)) ;;
      if truthy selected_food then
        food_data <- lift (dict_getitem selected_food food_choices) ;;
        nutrients <- lift (extract_nutrients food_data) ;;
        trigger (st_write (VStr "### Nutrition Info")) ;;
        trigger (st_json (VDict nutrients)) ;;
        ai_response <- get_ai_insight
                         ("Give me a quick analysis of " ++ py_str selected_food
                          ++ " with these nutrients: " ++ py_str (VDict nutrients)) ;;
        trigger (st_subheader "🤖 AI Insights") ;;
        trigger (st_write ai_response) ;;
        df <- lift (nutrition_frame nutrients selected_food) ;;
        plot_nutrition df
      else ret tt
    else trigger (st_error "No results found. Try another food name.")
  else ret tt.

Definition exercise_tab : M unit :=
  trigger (st_write (VStr "### Track Your Exercise")) ;;
  weight <- trigger (st_number_input "Enter your weight (kg):" 30 200 70) ;;
  table <- global EXERCISE_MET ;;
  exercise <- trigger (st_selectbox "Select exercise:" (map fst table)) ;;
  duration <- trigger (st_number_input "Duration (minutes):" 5 300 30) ;;
  pressed <- trigger (st_button "Calculate Calories Burned") ;;
  if (pressed : bool) then
    burned <- calculate_calories_burned (VInt weight) exercise (VInt duration) ;;
    trigger (st_success ("🔥 You burned approximately **" ++ py_str burned
                         ++ " calories** doing " ++ py_str exercise ++ " for "
                         ++ py_str (VInt duration) ++ " minutes."))
  else ret tt.

Definition meal_planner_tab : M unit :=
  trigger (st_write (VStr "### AI-Powered Meal Planner")) ;;
  daily_calories <- trigger (st_number_input "Target daily calories:" 1200 4000 2000) ;;
  diet_type <- trigger (st_selectbox "Diet preference:"
                          [VStr "Balanced"; VStr "Vegetarian"; VStr "Vegan";
                           VStr "Keto"; VStr "High-Protein"]) ;;
  pressed <- trigger (st_button "Generate Meal Plan") ;;
  if (pressed : bool) then
    meal_plan <- get_ai_insight
                   ("Create a " ++ py_str diet_type
                    ++ " meal plan for 1 day with around "
                    ++ py_str (VInt daily_calories)
                    ++ " calories. Show breakfast, lunch, dinner, and snacks.") ;;
    trigger (st_subheader "🍽️ Your AI Meal Plan") ;;
    trigger (st_write meal_plan)
  else ret tt.

End Page.

(** ** Running a computation against an environment *)

(** An environment answers every event. *)
Definition environment : Type := forall X : Type, event X -> X.

Fixpoint run {A} (env : environment) (p : prog A) : A :=
  match p with
  | Ret a => a
  | Vis ev k => run env (k (env _ ev))
  end.

(** The URL an event fetches, when it is a call to the food database. *)
Definition fetched {X} (ev : event X) : option string :=
  match ev with
  | requests_get url => Some url
  | _ => None
  end.

(** Every call to the food database that [p] can make, whatever the
    environment answers, fetches a URL satisfying [P]. *)
Fixpoint every_fetch {A} (P : string -> Prop) (p : prog A) : Prop :=
  match p with
  | Ret _ => True
  | Vis ev k =>
      match fetched ev with Some url => P url | None => True end
      /\ forall r, every_fetch P (k r)
  end.

(** [p] performs no event at all. *)
Definition silent {A} (p : prog A) : Prop :=
  match p with
  | Ret _ => True
  | Vis _ _ => False
  end.

(** * Vocabulary of the properties *)

(** ** The calorie estimate *)

(** A weight within the bounds of its input widget, as an [int] or as a
    [float]. *)
Definition weight_in_range (v : value) : Prop :=
  match v with
  | VInt z => 30 <= z <= 200
  | VFloat f => ((30 <=? f) && (f <=? 200))%float = true
  | _ => False
  end.

(** A duration within the bounds of its input widget. *)
Definition duration_in_range (v : value) : Prop :=
  match v with
  | VInt z => 5 <= z <= 300
  | VFloat f => ((5 <=? f) && (f <=? 300))%float = true
  | _ => False
  end.

(** The estimate as the specification writes it:
    [round(met * 3.5 * w / 200 * d, 2)] on floats. *)
Definition estimate_spec (met w d : float) : float :=
  Float64.round2 (met * 3.5 * w / 200 * d)%float.

Definition is_ok {A} (o : outcome A) : bool :=
  match o with Ok _ => true | Err _ => false end.

(** ** Environments *)

(** An environment that answers the food database with [got], the
    completion service with [chat], and leaves every widget at its
    default. *)
Definition quiet_environment (got : outcome response) (chat : outcome completion)
  : environment :=
  fun X ev =>
    match ev in event X return X with
    | requests_get _ => got
    | chat_completions_create _ => chat
    | st_text_input _ default => default
    | st_selectbox _ options => hd VNone options
    | st_number_input _ _ _ default => default
    | st_button _ => false
    | st_success _ | st_error _ | st_write _ | st_subheader _
    | st_json _ | st_plotly_chart _ => tt
    end.

(** ** Food records *)

(** A food record as the food database documents it, and its decoded
    JSON. *)
Record NutrientEntry : Type :=
  { nutrientName : string; nutrient_value : number }.

Record FoodRecord : Type :=
  { description : string; foodNutrients : list NutrientEntry }.

Definition number_value (n : number) : value :=
  match n with
  | NInt z => VInt z
  | NFloat f => VFloat f
  end.

Definition entry_item (n : NutrientEntry) : value * value :=
  (VStr (nutrientName n), number_value (nutrient_value n)).

Definition entry_json (n : NutrientEntry) : value :=
  VDict [ (VStr "nutrientName", VStr (nutrientName n));
          (VStr "value", number_value (nutrient_value n)) ].

Definition food_json (r : FoodRecord) : value :=
  VDict [ (VStr "description", VStr (description r));
          (VStr "foodNutrients", VList (map entry_json (foodNutrients r))) ].

(** The mapping the entries build, one assignment after the other. *)
Definition assign_all (es : list NutrientEntry) (acc : dict) : dict :=
  fold_left (fun d n => dict_set (fst (entry_item n)) (snd (entry_item n)) d) es acc.

(** The value of the last entry called [name]. *)
Fixpoint last_value (name : string) (es : list NutrientEntry) : option value :=
  match es with
  | [] => None
  | n :: rest =>
      match last_value name rest with
      | Some v => Some v
      | None => if String.eqb (nutrientName n) name
                then Some (number_value (nutrient_value n)) else None
      end
  end.

(** Dicts whose keys are all strings. *)
Definition named (d : dict) : Prop :=
  forall k, In k (map fst d) -> exists s, k = VStr s.

Definition banana : FoodRecord :=
  {| description := "Bananas, raw";
     foodNutrients :=
       [ {| nutrientName := "Energy"; nutrient_value := NInt 89 |};
         {| nutrientName := "Protein"; nutrient_value := NFloat 1.09 |};
         {| nutrientName := "Energy"; nutrient_value := NInt 371 |};
         {| nutrientName := "Total lipid (fat)"; nutrient_value := NFloat 0.33 |};
         {| nutrientName := "Water"; nutrient_value := NFloat 74.91 |};
         {| nutrientName := "Potassium, K"; nutrient_value := NInt 358 |} ] |}.

(** The quiet environment, with [query] typed into every text input. *)
Definition answers_query (query : string) (got : outcome response) : environment :=
  fun X ev =>
    match ev in event X return X with
    | st_text_input _ _ => query
    | other => quiet_environment got (Ok {| choices := [] |}) _ other
    end.

(** The quiet environment, with [query] typed into every text input and
    [selected] picked in every selectbox. *)
Definition browsing (query : string) (got : outcome response)
    (chat : outcome completion) (selected : value) : environment :=
  fun X ev =>
    match ev in event X return X with
    | st_text_input _ _ => query
    | st_selectbox _ _ => selected
    | other => quiet_environment got chat _ other
    end.

(** ** What a run does *)

(** The calls a run makes to the two services and what it puts on the
    page, in order. *)
Inductive call : Type :=
| Fetched (url : string)
| Asked (req : chat_request)
| ShownSuccess (body : string)
| ShownError (body : string)
| ShownText (body : value)
| ShownSubheader (body : string)
| ShownJson (body : value)
| ShownChart (fig : figure).

(** Reading a widget leaves no mark. *)
Definition observe {X} (ev : event X) : option call :=
  match ev with
  | requests_get url => Some (Fetched url)
  | chat_completions_create req => Some (Asked req)
  | st_success body => Some (ShownSuccess body)
  | st_error body => Some (ShownError body)
  | st_write body => Some (ShownText body)
  | st_subheader body => Some (ShownSubheader body)
  | st_json body => Some (ShownJson body)
  | st_plotly_chart fig => Some (ShownChart fig)
  | st_text_input _ _ | st_selectbox _ _ | st_number_input _ _ _ _
  | st_button _ => None
  end.

Fixpoint trace {A} (env : environment) (p : prog A) : list call :=
  match p with
  | Ret _ => []
  | Vis ev k =>
      match observe ev with
      | Some c => c :: trace env (k (env _ ev))
      | None => trace env (k (env _ ev))
      end
  end.

(** The text [get_ai_insight] makes of an answer of the completion
    service. *)
Definition insight_text (answer : outcome completion) : value :=
  match answer with
  | Err e => VStr ("AI API Error: " ++ exn_str e)
  | Ok response =>
      match choices response with
      | first :: _ => message_content first
      | [] => VStr "AI API Error: list index out of range"
      end
  end.

(** The three tabs, run one after the other as the script does (lines 105
    to 162; the page header above them is left out). *)
Definition tabs_body (py_str : value -> string) : M unit :=
  food_tab py_str ;; exercise_tab py_str ;; meal_planner_tab py_str.

(** The long-form row of one extracted nutrient. *)
Definition nutrient_row (selected_food : value) (kv : value * value) : long_row :=
  {| Food := selected_food; Nutrient := fst kv; Amount := snd kv |}.

Definition bar_chart (rows : list long_row) : figure :=
  {| data_frame := rows;
     fig_x := "Nutrient"; fig_y := "Amount";
     fig_color := "Food"; fig_barmode := "group" |}.

(** Values that a frame stores under one dtype, so that stacking their
    columns converts none of them: all floats, or all integers of 64
    bits. *)
Definition uniform (vs : list value) : Prop :=
  Forall (fun v => exists f, v = VFloat f) vs \/
  Forall (fun v => exists z, v = VInt z /\ - 2 ^ 63 <= z < 2 ^ 63) vs.

(** The mapping that string-keyed items build, one assignment after the
    other. *)
Definition assign_items (items : list (string * value)) (acc : dict) : dict :=
  fold_left (fun d kv => dict_set (VStr (fst kv)) (snd kv) d) items acc.

(** ** The estimate against the exact formula *)

(** The float a decimal denotes: [k / scale] correctly rounded, as a
    literal with that many places is read. *)
Definition decimal (k : Z) (scale : positive) : float :=
  match k with
  | Z0 => 0%float
  | Zpos p =>
      SF2Prim (SFdiv prec emax (S754_finite false p 0) (S754_finite false scale 0))
  | Zneg p =>
      SF2Prim (SFdiv prec emax (S754_finite true p 0) (S754_finite false scale 0))
  end.

(** The MET values as the source writes them, in tenths: 9.8 is 98. *)
Definition EXERCISE_MET_tenths : list (string * Z) :=
  [ ("Running (6 mph)", 98);
    ("Cycling (moderate)", 75);
    ("Walking (brisk)", 38);
    ("Swimming", 60);
    ("Yoga", 25);
    ("Weightlifting", 60) ].

(** 20000 times the exact value of [met * 3.5 * w / 200 * d] for the MET
    of [met10] tenths, hence 200 times that value in hundredths. *)
Definition formula_x20000 (met10 w d : Z) : Z := met10 * 35 * w * d.

(** The exact value in hundredths, rounded half to even and half up. *)
Definition half_even_hundredths (n20000 : Z) : Z := Float64.div_half_even n20000 200.
Definition half_up_hundredths (n20000 : Z) : Z := (n20000 + 100) / 200.

(** The hundredths [round2] settles on for a positive float. *)
Definition cents_of (x : float) : option Z :=
  match Prim2SF x with
  | S754_finite false m e => Some (Float64.hundredths m e)
  | _ => None
  end.

(** The same by shifts, for checking many floats. *)
Definition half_even_shift (a n : Z) : Z :=
  let q := Z.shiftr a n in
  match (2 * Z.land a (Z.ones n)) ?= Z.shiftl 1 n with
  | Lt => q
  | Gt => q + 1
  | Eq => if Z.even q then q else q + 1
  end.

Definition cents_by_shift (x : float) : option Z :=
  match Prim2SF x with
  | S754_finite false m e =>
      Some (if 0 <=? e then Zpos m * 2 ^ e * 100
            else half_even_shift (Zpos m * 100) (- e))
  | _ => None
  end.

Definition zrange (lo : Z) (n : nat) : list Z :=
  map (fun i => lo + Z.of_nat i) (seq 0 n).

Definition floats_of (zs : list Z) : list (Z * outcome float) :=
  map (fun z => (z, Float64.of_int z)) zs.

(** The estimate for [w] and [d], with [met] the float of [met10] tenths,
    is within half a hundredth of the exact value. *)
Definition near (met : float) (met10 : Z) (w d : Z * outcome float) : bool :=
  match snd w, snd d with
  | Ok wf, Ok df =>
      match cents_by_shift (met * 3.5 * wf / 200 * df)%float with
      | Some k => Z.abs (200 * k - formula_x20000 met10 (fst w) (fst d)) <=? 100
      | None => false
      end
  | _, _ => false
  end.

Definition all_near_on (mets : list (float * Z)) (ws ds : list (Z * outcome float))
  : bool :=
  forallb (fun met => forallb (fun w => forallb (near (fst met) (snd met) w) ds) ws)
          mets.

Definition met_floats : list (float * Z) :=
  map (fun met10 => (decimal met10 10, met10)) [98; 75; 38; 60; 25].

(** The inputs the two number widgets can deliver, with their floats. *)
Definition weights : list (Z * outcome float) := floats_of (zrange 30 171).
Definition durations : list (Z * outcome float) := floats_of (zrange 5 296).

(** The quiet environment, with every button pressed. *)
Definition pressing (got : outcome response) (chat : outcome completion)
  : environment :=
  fun X ev =>
    match ev in event X return X with
    | st_button _ => true
    | other => quiet_environment got chat _ other
    end.

Definition two_digits (n : Z) : string :=
  (if n <? 10 then "0" else "") ++ NilZero.string_of_int (Z.to_int n).

(** A rendering of values for examples: strings as they are, integers in
    decimal, a positive float by its hundredths, anything else by the name
    of its type. *)
Definition sketch (v : value) : string :=
  match v with
  | VStr s => s
  | VInt z => NilZero.string_of_int (Z.to_int z)
  | VFloat x =>
      match cents_of x with
      | Some k => NilZero.string_of_int (Z.to_int (k / 100)) ++ "."
                  ++ two_digits (k mod 100)
      | None => type_name v
      end
  | _ => type_name v
  end.

(** The label of the widget an event reads. *)
Definition widget {X} (ev : event X) : option string :=
  match ev with
  | st_text_input label _ => Some label
  | st_selectbox label _ => Some label
  | st_number_input label _ _ _ => Some label
  | st_button label => Some label
  | _ => None
  end.

(** The widgets a run reads, in order. *)
Fixpoint consulted {A} (env : environment) (p : prog A) : list string :=
  match p with
  | Ret _ => []
  | Vis ev k =>
      match widget ev with
      | Some label => label :: consulted env (k (env _ ev))
      | None => consulted env (k (env _ ev))
      end
  end.

(** * Properties *)

(** ** The calorie estimate *)

Lemma of_int_widget_range (z : Z) :
  0 <= z <= 300 -> exists f, Float64.of_int z = Ok f.
Proof.
  intros Hz.
  assert (Hall : forallb (fun n => is_ok (Float64.of_int (Z.of_nat n)))
                         (seq 0 301) = true) by (vm_compute; reflexivity).
  rewrite forallb_forall in Hall.
  specialize (Hall (Z.to_nat z)).
  rewrite Z2Nat.id in Hall by lia.
  destruct (Float64.of_int z) as [f|e].
  - now exists f.
  - discriminate Hall. apply in_seq. lia.
Qed.

Lemma to_float_weight (v : value) :
  weight_in_range v -> exists f, to_float v = Ok f.
Proof.
  destruct v; simpl; try contradiction; intros Hv.
  - unfold to_float; simpl. apply of_int_widget_range. lia.
  - exists f. reflexivity.
Qed.

Lemma to_float_duration (v : value) :
  duration_in_range v -> exists f, to_float v = Ok f.
Proof.
  destruct v; simpl; try contradiction; intros Hv.
  - unfold to_float; simpl. apply of_int_widget_range. lia.
  - exists f. reflexivity.
Qed.

Lemma string_key_absent (name : string) (d : dict) :
  ~ In (VStr name) (map fst d) ->
  (forall k, In k (map fst d) -> exists s, k = VStr s) ->
  dict_find (VStr name) d = None.
Proof.
  induction d as [|[k v] d IH]; intros Hnot Hkeys; simpl; [reflexivity|].
  destruct (Hkeys k (or_introl eq_refl)) as [s ->]. simpl.
  destruct (String.eqb_spec s name) as [->|Hne].
  - exfalso. apply Hnot. now left.
  - apply IH.
    + intros Hin. apply Hnot. now right.
    + intros k' Hk'. apply Hkeys. now right.
Qed.

Lemma EXERCISE_MET_keys_are_names (k : value) :
  In k (map fst EXERCISE_MET_table) -> exists s, k = VStr s.
Proof.
  simpl. intros H.
  repeat (destruct H as [<-|H]; [eexists; reflexivity|]). contradiction.
Qed.

(** The estimator as the expression it evaluates: for every exercise of
    the Energy Table, every weight in [30, 200] and every duration in
    [5, 300], as an [int] or as a [float], the result is [round2] of the
    float product, and the module state is left as it was. *)
Theorem calculate_calories_burned_formula
    (usda openai : option string) (name : string) (met : float) (w d : value) :
  In (VStr name, VFloat met) EXERCISE_MET_table ->
  weight_in_range w ->
  duration_in_range d ->
  exists wf df,
    to_float w = Ok wf /\ to_float d = Ok df /\
    calculate_calories_burned w (VStr name) d (module_state usda openai)
    = Ret (Ok (VFloat (estimate_spec met wf df)), module_state usda openai).
Proof.
  intros Hin Hw Hd.
  destruct (to_float_weight w Hw) as [wf Hwf].
  destruct (to_float_duration d Hd) as [df Hdf].
  exists wf, df. repeat split; trivial.
  unfold calculate_calories_burned, estimate_spec, bind, global, lift, ret.
  simpl in Hin.
  repeat (destruct Hin as [Heq|Hin];
          [ injection Heq as <- <-; cbn;
            unfold met_formula, mul_float, float_mul; cbn;
            rewrite Hwf; cbn; rewrite Hdf; reflexivity | ]).
  contradiction.
Qed.

Lemma calculate_calories_burned_formula_witness :
  exists wf df,
    to_float (VInt 70) = Ok wf /\ to_float (VInt 30) = Ok df /\
    calculate_calories_burned (VInt 70) (VStr "Yoga") (VInt 30)
                              (module_state None None)
    = Ret (Ok (VFloat (estimate_spec 2.5 wf df)), module_state None None).
Proof.
  apply (calculate_calories_burned_formula None None "Yoga" 2.5 (VInt 70) (VInt 30)).
  - simpl. tauto.
  - simpl. lia.
  - simpl. lia.
Defined.

(** C2. For every exercise name that is not a key of the Energy Table,
    and whatever the weight and the duration are, the estimator returns
    the integer 0 and raises nothing. *)
Theorem calculate_calories_burned_unknown
    (usda openai : option string) (name : string) (w d : value) :
  ~ In (VStr name) (map fst EXERCISE_MET_table) ->
  calculate_calories_burned w (VStr name) d (module_state usda openai)
  = Ret (Ok (VInt 0), module_state usda openai).
Proof.
  intros Hnot.
  unfold calculate_calories_burned, bind, global, lift, ret, dict_contains.
  cbn [pbind fst snd EXERCISE_MET module_state hashable].
  rewrite (string_key_absent name EXERCISE_MET_table Hnot EXERCISE_MET_keys_are_names).
  reflexivity.
Qed.

Lemma calculate_calories_burned_unknown_witness :
  calculate_calories_burned (VInt 70) (VStr "Unknown Sport") (VInt 30)
                            (module_state None None)
  = Ret (Ok (VInt 0), module_state None None).
Proof.
  apply (calculate_calories_burned_unknown None None "Unknown Sport").
  simpl. intros H.
  repeat (destruct H as [H|H]; [discriminate H|]). exact H.
Defined.

(** C6. Weight 70 kg, "Running (6 mph)", 30 minutes: the estimator returns
    360.15. *)
Theorem calculate_calories_burned_running (usda openai : option string) :
  calculate_calories_burned (VInt 70) (VStr "Running (6 mph)") (VInt 30)
                            (module_state usda openai)
  = Ret (Ok (VFloat 360.15), module_state usda openai).
Proof. vm_compute. reflexivity. Qed.

(** The products of the formula are rounded binary fractions, so a value
    that sits exactly halfway between two hundredths as a decimal is
    rounded as the float falls: 0.1715 * 30 * 5 = 25.725 goes up to 25.73,
    and 0.1715 * 34 * 105 = 612.255 goes down to 612.25. *)
Example calculate_calories_burned_tie_up :
  98 * 35 * 30 * 5 = 20 * 25725 /\
  calculate_calories_burned (VInt 30) (VStr "Running (6 mph)") (VInt 5)
                            (module_state None None)
  = Ret (Ok (VFloat 25.73), module_state None None).
Proof. split; [reflexivity | vm_compute; reflexivity]. Qed.

Example calculate_calories_burned_tie_down :
  98 * 35 * 34 * 105 = 20 * 612255 /\
  calculate_calories_burned (VInt 34) (VStr "Running (6 mph)") (VInt 105)
                            (module_state None None)
  = Ret (Ok (VFloat 612.25), module_state None None).
Proof. split; [reflexivity | vm_compute; reflexivity]. Qed.

(** C8. The estimator is pure and deterministic: a call performs no
    event, leaves the module state (the Energy Table with it) as it found
    it, and its result is fixed by the weight, the exercise, the duration
    and the Energy Table alone, so two calls on the same three arguments
    return the same. *)
Theorem calculate_calories_burned_pure (w e d : value) (g : globals) :
  exists r,
    calculate_calories_burned w e d g = Ret (r, g) /\
    forall g', EXERCISE_MET g' = EXERCISE_MET g ->
               calculate_calories_burned w e d g' = Ret (r, g').
Proof.
  unfold calculate_calories_burned, bind, global, lift, ret.
  cbn [pbind fst snd].
  destruct (dict_contains e (EXERCISE_MET g)) as [[|]|x] eqn:Hknown;
    cbn [negb pbind fst snd];
    [ destruct (dict_getitem e (EXERCISE_MET g)) as [met|x] eqn:Hmet;
      cbn [pbind fst snd];
      [ destruct (met_formula met w d) as [c|x] eqn:Hc; cbn [pbind fst snd] | ]
    | | ];
    (eexists; split; [reflexivity|]);
    intros g' Hg';
    repeat (rewrite ?Hg', ?Hknown, ?Hmet, ?Hc; cbn [negb pbind fst snd]);
    reflexivity.
Qed.

(** ** Food lookup *)

Ltac step_run :=
  unfold bind, trigger, global, lift, ret, raise;
  cbn [pbind run fst snd].

(** A body that does not parse is not turned into an empty result: the
    decoding error of [response.json()] leaves the function. *)
Lemma search_food_usda_unparseable_raises :
  let bad := {| status_code := 200;
                json := Err (Exn JSONDecodeError "Expecting value") |} in
  let g := module_state (Some "DEMO_KEY") None in
  run (quiet_environment (Ok bad) (Ok {| choices := [] |}))
      (search_food_usda "banana" g)
  = (Err (Exn JSONDecodeError "Expecting value"), g)
  /\ fst (run (quiet_environment (Ok bad) (Ok {| choices := [] |}))
              (search_food_usda "banana" g))
     <> Ok (VList []).
Proof. split; [reflexivity | discriminate]. Qed.

(** C3, amended.  Whatever the food database answers: a 200 response
    whose body parses to a JSON object with a non-empty [foods] array
    yields that array; every non-200 response yields the empty list, its
    body unread; a 200 response whose body parses to a JSON object without
    a [foods] key, or with an empty [foods] array, yields the empty list.
    None of these raises, and the module state is untouched. *)
Theorem search_food_usda_result
    (env : environment) (query : string) (g : globals) (resp : response) :
  env _ (requests_get (usda_url query (USDA_API_KEY g))) = Ok resp ->
  (status_code resp <> 200 ->
   run env (search_food_usda query g) = (Ok (VList []), g))
  /\
  (status_code resp = 200 ->
   forall d, json resp = Ok (VDict d) ->
     (dict_find (VStr "foods") d = None ->
      run env (search_food_usda query g) = (Ok (VList []), g))
     /\ (dict_find (VStr "foods") d = Some (VList []) ->
         run env (search_food_usda query g) = (Ok (VList []), g))
     /\ (forall f fs, dict_find (VStr "foods") d = Some (VList (f :: fs)) ->
         run env (search_food_usda query g) = (Ok (VList (f :: fs)), g))).
Proof.
  intros Henv. unfold search_food_usda. step_run. rewrite Henv. step_run.
  split.
  - intros Hstatus. apply Z.eqb_neq in Hstatus. rewrite Hstatus. reflexivity.
  - intros Hstatus d Hjson. rewrite Hstatus, Hjson. cbn [Z.eqb Pos.eqb].
    step_run. unfold py_contains, py_getitem, dict_contains, dict_getitem.
    cbn [hashable]. repeat split.
    + intros Hfoods. rewrite Hfoods. reflexivity.
    + intros Hfoods. rewrite Hfoods. reflexivity.
    + intros f fs Hfoods. rewrite Hfoods. step_run.
      unfold py_len. step_run.
      replace (Z.of_nat (List.length (f :: fs)) >? 0) with true.
      * reflexivity.
      * symmetry. apply Z.gtb_lt. cbn [List.length]. lia.
Qed.

Lemma search_food_usda_result_witness :
  let resp := {| status_code := 200;
                 json := Ok (VDict [(VStr "foods",
                                     VList [VDict [(VStr "description", VStr "Banana")]])]) |} in
  let env := quiet_environment (Ok resp) (Ok {| choices := [] |}) in
  let g := module_state None None in
  run env (search_food_usda "banana" g)
  = (Ok (VList [VDict [(VStr "description", VStr "Banana")]]), g).
Proof.
  intros resp env g.
  refine (proj2 (proj2 (proj2 (search_food_usda_result env "banana" g resp eq_refl)
                          eq_refl _ eq_refl)) _ _ eq_refl).
Defined.

(** ** Narrative insight *)

Lemma error_banner (cause : string) :
  String.prefix "AI API Error:" ("AI API Error: " ++ cause) = true.
Proof. reflexivity. Qed.

(** C4. Whatever the completion service does with the prompt,
    [get_ai_insight] returns and does not raise: when the call fails (the
    client raises an [Exception]) or the response has no choice to read,
    the result is a string that begins with "AI API Error:" followed by
    the cause; otherwise it is the generated text, the content of the
    first choice.  The module state is untouched. *)
Theorem get_ai_insight_never_raises
    (env : environment) (prompt : string) (g : globals) :
  (forall e, env _ (chat_completions_create (insight_request prompt)) = Err e ->
             is_Exception (exn_type e) = true) ->
  exists v,
    run env (get_ai_insight prompt g) = (Ok v, g) /\
    match env _ (chat_completions_create (insight_request prompt)) with
    | Err e =>
        v = VStr ("AI API Error: " ++ exn_str e) /\
        String.prefix "AI API Error:" ("AI API Error: " ++ exn_str e) = true
    | Ok response =>
        match choices response with
        | first :: _ => v = message_content first
        | [] =>
            v = VStr "AI API Error: list index out of range" /\
            String.prefix "AI API Error:" "AI API Error: list index out of range" = true
        end
    end.
Proof.
  intros Hfail. unfold get_ai_insight, try_except. step_run.
  destruct (env _ (chat_completions_create (insight_request prompt)))
    as [response|e] eqn:Hanswer; step_run.
  - destruct (choices response) as [|first rest]; cbn.
    + eexists. split; [reflexivity|]. split; reflexivity.
    + eexists. split; reflexivity.
  - rewrite (Hfail e eq_refl). cbn.
    eexists. split; [reflexivity|]. split; [reflexivity|exact (error_banner (exn_str e))].
Qed.

Lemma get_ai_insight_never_raises_witness :
  let env := quiet_environment
               (Err (Exn RequestException "unused"))
               (Err (Exn OpenAIError "Error code: 401 - Incorrect API key provided")) in
  exists v,
    run env (get_ai_insight "Is a banana healthy?" (module_state None None))
    = (Ok v, module_state None None) /\
    v = VStr "AI API Error: Error code: 401 - Incorrect API key provided".
Proof.
  intros env.
  destruct (get_ai_insight_never_raises env "Is a banana healthy?"
              (module_state None None)) as [v [Hrun [Hv _]]].
  - intros e He. injection He as <-. reflexivity.
  - exists v. split; assumption.
Defined.

(** ** Nutrient extraction *)

Section StringKeys.

Lemma key_eqb_names (s t : string) : key_eqb (VStr s) (VStr t) = String.eqb s t.
Proof. reflexivity. Qed.

Lemma named_nil : named [].
Proof. intros k []. Qed.

Lemma named_cons_inv k v d : named ((k, v) :: d) -> (exists s, k = VStr s) /\ named d.
Proof.
  intros H. split.
  - apply H. now left.
  - intros k' Hk'. apply H. now right.
Qed.

Lemma dict_set_keys (name : string) (v : value) (d : dict) :
  named d ->
  forall k, In k (map fst (dict_set (VStr name) v d))
            <-> In k (map fst d) \/ k = VStr name.
Proof.
  induction d as [|[k0 v0] d IH]; intros Hd k; simpl.
  - intuition congruence.
  - destruct (named_cons_inv _ _ _ Hd) as [[s ->] Hd'].
    rewrite key_eqb_names. destruct (String.eqb_spec s name) as [->|Hne]; simpl.
    + intuition congruence.
    + rewrite (IH Hd'). tauto.
Qed.

Lemma dict_set_named (name : string) (v : value) (d : dict) :
  named d -> named (dict_set (VStr name) v d).
Proof.
  intros Hd k Hk. apply (dict_set_keys name v d Hd) in Hk.
  destruct Hk as [Hk| ->]; [now apply Hd | now exists name].
Qed.

Lemma dict_set_NoDup (name : string) (v : value) (d : dict) :
  named d -> NoDup (map fst d) -> NoDup (map fst (dict_set (VStr name) v d)).
Proof.
  induction d as [|[k0 v0] d IH]; intros Hd Hnd; simpl.
  - constructor; [intros [] | constructor].
  - destruct (named_cons_inv _ _ _ Hd) as [[s ->] Hd'].
    rewrite key_eqb_names. destruct (String.eqb_spec s name) as [->|Hne]; simpl.
    + exact Hnd.
    + inversion Hnd as [|? ? Hnotin Hnd']; subst. constructor.
      * intros Hin. apply (dict_set_keys name v d Hd') in Hin.
        destruct Hin as [Hin|Heq]; [now apply Hnotin | congruence].
      * now apply IH.
Qed.

Lemma dict_find_set (name k : string) (v : value) (d : dict) :
  named d ->
  dict_find (VStr k) (dict_set (VStr name) v d)
  = if String.eqb name k then Some v else dict_find (VStr k) d.
Proof.
  induction d as [|[k0 v0] d IH]; intros Hd; simpl.
  - reflexivity.
  - destruct (named_cons_inv _ _ _ Hd) as [[s ->] Hd'].
    rewrite key_eqb_names.
    destruct (String.eqb_spec s name) as [->|Hne]; simpl.
    + destruct (String.eqb_spec name k); reflexivity.
    + destruct (String.eqb_spec s k) as [->|Hsk].
      * destruct (String.eqb_spec name k); [congruence | reflexivity].
      * now apply IH.
Qed.

Lemma dict_set_fresh (name : string) (v : value) (d : dict) :
  named d -> ~ In (VStr name) (map fst d) ->
  dict_set (VStr name) v d = (d ++ [(VStr name, v)])%list.
Proof.
  induction d as [|[k0 v0] d IH]; intros Hd Hnot; simpl.
  - reflexivity.
  - destruct (named_cons_inv _ _ _ Hd) as [[s ->] Hd'].
    rewrite key_eqb_names. destruct (String.eqb_spec s name) as [->|Hne].
    + exfalso. apply Hnot. now left.
    + f_equal. apply IH; [assumption|]. intros Hin. apply Hnot. now right.
Qed.

End StringKeys.

Section Extraction.

Let name_of (n : value) := py_getitem n "nutrientName".
Let value_of (n : value) := py_getitem n "value".

Lemma dict_set_length (k v : value) (d : dict) :
  (List.length (dict_set k v d) <= S (List.length d))%nat.
Proof.
  induction d as [|[k0 v0] d IH]; simpl; [lia|].
  destruct (key_eqb k0 k); simpl; lia.
Qed.

Lemma dict_comprehension_length key_of val_of (items : list value) :
  forall acc d,
    dict_comprehension key_of val_of items acc = Ok d ->
    (List.length d <= List.length acc + List.length items)%nat.
Proof.
  induction items as [|i rest IH]; intros acc d; simpl.
  - intros [= <-]. lia.
  - destruct (key_of i) as [k|]; [|discriminate]. simpl.
    destruct (val_of i) as [v|]; [|discriminate]. simpl.
    unfold dict_setitem. destruct (hashable k); [|discriminate]. simpl.
    intros H. apply IH in H. pose proof (dict_set_length k v acc). lia.
Qed.

(** Whatever value stands for the record, a mapping that comes out of
    the extraction has at most five items. *)
Lemma extract_nutrients_at_most_five (food_data : value) (d : dict) :
  extract_nutrients food_data = Ok d -> (List.length d <= 5)%nat.
Proof.
  unfold extract_nutrients.
  destruct (py_getitem food_data "foodNutrients") as [all|]; [|discriminate].
  simpl. destruct all as [| | | |s|l|d0]; simpl; try discriminate.
  - unfold chars.
    match goal with
    | |- context [map VStr (code_points ?t)] =>
        destruct (code_points t) as [|c cs]; simpl
    end.
    + intros [= <-]. simpl. lia.
    + discriminate.
  - intros H. apply dict_comprehension_length in H.
    pose proof (firstn_le_length 5 l) as Hfive. simpl in H, Hfive. lia.
Qed.

Lemma comprehension_of_entries (es : list NutrientEntry) :
  forall acc,
    dict_comprehension name_of value_of (map entry_json es) acc
    = Ok (assign_all es acc).
Proof.
  induction es as [|n es IH]; intros acc; [reflexivity|].
  simpl. apply IH.
Qed.

Lemma extract_nutrients_of_record (r : FoodRecord) :
  extract_nutrients (food_json r) = Ok (assign_all (firstn 5 (foodNutrients r)) []).
Proof.
  unfold extract_nutrients.
  replace (py_getitem (food_json r) "foodNutrients")
    with (Ok (VList (map entry_json (foodNutrients r)))) by reflexivity.
  cbn [obind py_slice_to py_iter]. rewrite firstn_map.
  apply comprehension_of_entries.
Qed.

Lemma assign_all_named (es : list NutrientEntry) :
  forall acc, named acc -> named (assign_all es acc).
Proof.
  induction es as [|n es IH]; intros acc Hacc; simpl; [assumption|].
  apply IH. now apply dict_set_named.
Qed.

Lemma assign_all_NoDup (es : list NutrientEntry) :
  forall acc, named acc -> NoDup (map fst acc) ->
              NoDup (map fst (assign_all es acc)).
Proof.
  induction es as [|n es IH]; intros acc Hacc Hnd; simpl; [assumption|].
  apply IH; [now apply dict_set_named | now apply dict_set_NoDup].
Qed.

Lemma assign_all_keys (es : list NutrientEntry) :
  forall acc, named acc ->
  forall k, In k (map fst (assign_all es acc))
            <-> In k (map fst acc) \/ exists n, In n es /\ k = VStr (nutrientName n).
Proof.
  induction es as [|n es IH]; intros acc Hacc k; simpl.
  - split; [tauto | intros [H|[n [[] _]]]; exact H].
  - rewrite IH by now apply dict_set_named.
    rewrite dict_set_keys by assumption.
    split.
    + intros [[H|H]|[m [Hm Hk]]]; eauto.
    + intros [H|[m [[<-|Hm] Hk]]]; eauto.
Qed.

Lemma assign_all_find (name : string) (es : list NutrientEntry) :
  forall acc, named acc ->
    dict_find (VStr name) (assign_all es acc)
    = match last_value name es with
      | Some v => Some v
      | None => dict_find (VStr name) acc
      end.
Proof.
  induction es as [|n es IH]; intros acc Hacc; simpl; [reflexivity|].
  rewrite IH by now apply dict_set_named.
  destruct (last_value name es); [reflexivity|].
  rewrite dict_find_set by assumption.
  destruct (String.eqb (nutrientName n) name); reflexivity.
Qed.

Lemma assign_all_distinct (es : list NutrientEntry) :
  forall acc, named acc ->
    NoDup (map nutrientName es) ->
    (forall n, In n es -> ~ In (VStr (nutrientName n)) (map fst acc)) ->
    assign_all es acc = (acc ++ map entry_item es)%list.
Proof.
  induction es as [|n es IH]; intros acc Hacc Hnd Hfresh; simpl.
  - now rewrite app_nil_r.
  - inversion Hnd as [|? ? Hn Hnd']; subst.
    rewrite IH.
    + rewrite dict_set_fresh by (try assumption; apply Hfresh; now left).
      now rewrite <- app_assoc.
    + now apply dict_set_named.
    + assumption.
    + intros m Hm Hin. apply dict_set_keys in Hin; [|assumption].
      destruct Hin as [Hin|Heq].
      * apply (Hfresh m); [now right | assumption].
      * apply Hn. injection Heq as <-. now apply in_map.
Qed.

Lemma assign_all_length (es : list NutrientEntry) :
  (List.length (assign_all es []) <= List.length es)%nat.
Proof.
  rewrite <- (length_map fst), <- (length_map (fun n => VStr (nutrientName n)) es).
  apply NoDup_incl_length.
  - apply assign_all_NoDup; [apply named_nil | constructor].
  - intros k Hk. apply assign_all_keys in Hk; [|apply named_nil].
    destruct Hk as [[]|[n [Hn ->]]].
    now apply (in_map (fun n => VStr (nutrientName n))).
Qed.

Lemma assign_all_shrinks (es : list NutrientEntry) :
  ~ NoDup (map nutrientName es) ->
  (List.length (assign_all es []) < List.length es)%nat.
Proof.
  intros Hdup.
  destruct (Nat.lt_ge_cases (List.length (assign_all es [])) (List.length es))
    as [Hlt|Hge]; [assumption|].
  exfalso. apply Hdup.
  apply (NoDup_map_inv VStr). rewrite map_map.
  apply (NoDup_incl_NoDup (l := map fst (assign_all es []))).
  - apply assign_all_NoDup; [apply named_nil | constructor].
  - now rewrite !length_map.
  - intros k Hk. apply assign_all_keys in Hk; [|apply named_nil].
    destruct Hk as [[]|[n [Hn ->]]].
    now apply (in_map (fun n => VStr (nutrientName n))).
Qed.

End Extraction.

Lemma last_value_absent (name : string) (es : list NutrientEntry) :
  ~ In name (map nutrientName es) -> last_value name es = None.
Proof.
  induction es as [|n es IH]; intros Hnot; simpl; [reflexivity|].
  rewrite IH by (intros Hin; apply Hnot; now right).
  destruct (String.eqb_spec (nutrientName n) name) as [Heq|]; [|reflexivity].
  exfalso. apply Hnot. now left.
Qed.

Lemma last_value_split (before after : list NutrientEntry) (n : NutrientEntry) :
  ~ In (nutrientName n) (map nutrientName after) ->
  last_value (nutrientName n) (before ++ n :: after)
  = Some (number_value (nutrient_value n)).
Proof.
  intros Hlast. induction before as [|b before IH]; simpl.
  - rewrite (last_value_absent _ _ Hlast). now rewrite String.eqb_refl.
  - now rewrite IH.
Qed.

(** C5. For every food record, the extraction returns the mapping that
    the first five nutrient entries build, assigned one after the other in
    the order of the record: its keys are the names of those entries, each
    name carries the value of its last entry among them, distinct names
    give exactly the entries in their order, and the mapping never has
    more than five items however many nutrients the record lists. *)
Theorem extract_nutrients_first_five (r : FoodRecord) :
  let firsts := firstn 5 (foodNutrients r) in
  exists d,
    extract_nutrients (food_json r) = Ok d /\
    d = assign_all firsts [] /\
    (List.length d <= 5)%nat /\
    (forall k, In k (map fst d)
               <-> exists n, In n firsts /\ k = VStr (nutrientName n)) /\
    (forall name, dict_find (VStr name) d = last_value name firsts) /\
    (NoDup (map nutrientName firsts) -> d = map entry_item firsts).
Proof.
  intros firsts. exists (assign_all firsts []).
  pose proof (extract_nutrients_of_record r) as Hrun. fold firsts in Hrun.
  repeat split.
  - exact Hrun.
  - exact (extract_nutrients_at_most_five _ _ Hrun).
  - intros Hk. apply assign_all_keys in Hk; [|apply named_nil].
    destruct Hk as [[]|Hk]. exact Hk.
  - intros Hk. apply assign_all_keys; [apply named_nil | now right].
  - intros name. rewrite assign_all_find by apply named_nil.
    now destruct (last_value name firsts).
  - intros Hnd. rewrite assign_all_distinct; trivial; [apply named_nil|].
    intros n _ [].
Qed.

(** C10. When two or more of the first five nutrient entries share a
    name, the extracted mapping has fewer than five items, and each name
    among the five carries the value of its last entry among them: a later
    entry overwrites an earlier one of the same name. *)
Theorem extract_nutrients_duplicates (r : FoodRecord) :
  ~ NoDup (map nutrientName (firstn 5 (foodNutrients r))) ->
  exists d,
    extract_nutrients (food_json r) = Ok d /\
    (List.length d < 5)%nat /\
    forall before n after,
      firstn 5 (foodNutrients r) = (before ++ n :: after)%list ->
      ~ In (nutrientName n) (map nutrientName after) ->
      dict_find (VStr (nutrientName n)) d = Some (number_value (nutrient_value n)).
Proof.
  intros Hdup. exists (assign_all (firstn 5 (foodNutrients r)) []).
  split; [apply extract_nutrients_of_record|]. split.
  - pose proof (assign_all_shrinks _ Hdup).
    pose proof (firstn_le_length 5 (foodNutrients r)). lia.
  - intros before n after Hsplit Hlast.
    rewrite assign_all_find by apply named_nil.
    rewrite Hsplit, (last_value_split before after n Hlast). reflexivity.
Qed.

Lemma extract_nutrients_duplicates_witness :
  exists d,
    extract_nutrients (food_json banana) = Ok d /\
    (List.length d < 5)%nat /\
    dict_find (VStr "Energy") d = Some (VInt 371).
Proof.
  destruct (extract_nutrients_duplicates banana) as [d [Hrun [Hlen Hlast]]].
  - simpl. intros Hnd. inversion Hnd as [|? ? Hnot _]. apply Hnot. simpl. tauto.
  - exists d. repeat split; trivial.
    apply (Hlast [ {| nutrientName := "Energy"; nutrient_value := NInt 89 |};
                   {| nutrientName := "Protein"; nutrient_value := NFloat 1.09 |} ]
                 {| nutrientName := "Energy"; nutrient_value := NInt 371 |}
                 [ {| nutrientName := "Total lipid (fat)"; nutrient_value := NFloat 0.33 |};
                   {| nutrientName := "Water"; nutrient_value := NFloat 74.91 |} ]).
    + reflexivity.
    + simpl. intros [H|[H|[]]]; discriminate H.
Defined.

(** ** The chart *)

Section Melt.

Let is_food (c : value * list value) : bool := key_eqb (fst c) (VStr "Food").
Let is_amount (c : value * list value) : bool := key_eqb (fst c) (VStr "Amount").

Lemma filter_none (A : Type) (keep : A -> bool) (l : list A) :
  (forall a, In a l -> keep a = false) -> filter keep l = [].
Proof.
  induction l as [|a l IH]; intros Hall; simpl; [reflexivity|].
  rewrite (Hall a (or_introl eq_refl)). apply IH.
  intros a' Ha'. apply Hall. now right.
Qed.

Lemma find_food_column (before after : frame) (foods : list value) :
  (forall c, In c before -> is_food c = false) ->
  (forall c, In c after -> is_food c = false) ->
  filter is_food (before ++ (VStr "Food", foods) :: after)%list
  = [(VStr "Food", foods)].
Proof.
  intros Hbefore Hafter. rewrite filter_app. cbn [filter].
  rewrite (filter_none _ _ before Hbefore), (filter_none _ _ after Hafter).
  reflexivity.
Qed.

Lemma filter_all (A : Type) (keep : A -> bool) (l : list A) :
  (forall a, In a l -> keep a = true) -> filter keep l = l.
Proof.
  induction l as [|a l IH]; intros Hall; simpl; [reflexivity|].
  rewrite (Hall a (or_introl eq_refl)). f_equal. apply IH.
  intros a' Ha'. apply Hall. now right.
Qed.

Lemma existsb_none (A : Type) (p : A -> bool) (l : list A) :
  (forall a, In a l -> p a = false) -> existsb p l = false.
Proof.
  induction l as [|a l IH]; intros Hall; simpl; [reflexivity|].
  rewrite (Hall a (or_introl eq_refl)). apply IH.
  intros a' Ha'. apply Hall. now right.
Qed.

Lemma flat_map_blocks (A B : Type) (f : A -> list B) (n : nat) (l : list A) :
  (forall a, In a l -> List.length (f a) = n) ->
  List.length (flat_map f l) = (n * List.length l)%nat.
Proof.
  induction l as [|a l IH]; intros Hall; simpl; [lia|].
  rewrite length_app, (Hall a (or_introl eq_refl)), IH; [lia|].
  intros a' Ha'. apply Hall. now right.
Qed.

Lemma melt_wide (before after : frame) (foods : list value) :
  (forall c, In c (before ++ after)%list -> is_food c = false /\ is_amount c = false) ->
  melt (before ++ (VStr "Food", foods) :: after)%list "Food" "Amount"
  = Ok (flat_map (block foods) (before ++ after)%list).
Proof.
  intros Hcols. unfold melt, has_column.
  assert (Hb : forall c, In c before -> is_food c = false /\ is_amount c = false)
    by (intros c Hc; apply Hcols, in_or_app; now left).
  assert (Ha : forall c, In c after -> is_food c = false /\ is_amount c = false)
    by (intros c Hc; apply Hcols, in_or_app; now right).
  rewrite existsb_app. cbn [existsb].
  rewrite (existsb_none _ _ before) by (intros c Hc; now apply Hb).
  rewrite (existsb_none _ _ after) by (intros c Hc; now apply Ha).
  cbn [fst orb]. change (key_eqb (VStr "Food") (VStr "Amount")) with false.
  cbn [orb]. fold is_food.
  rewrite find_food_column
    by (intros c Hc; first [now apply Hb | now apply Ha]).
  rewrite filter_app. cbn [filter fst].
  change (key_eqb (VStr "Food") (VStr "Food")) with true. cbn [negb].
  rewrite !filter_all; [reflexivity| |].
  - intros c Hc. fold (is_food c). now rewrite (proj1 (Ha c Hc)).
  - intros c Hc. fold (is_food c). now rewrite (proj1 (Hb c Hc)).
Qed.

End Melt.

(** A missing cell of the wide table stays a row of the long table: with
    one food and one nutrient whose value is [None], the chart is drawn
    from one row, and the amount of that row is null. *)
Lemma melt_keeps_missing_cell :
  let df := [ (VStr "Food", [VStr "Bananas, raw"]); (VStr "Protein", [VNone]) ] in
  let row := {| Food := VStr "Bananas, raw"; Nutrient := VStr "Protein";
                Amount := VNone |} in
  melt df "Food" "Amount" = Ok [row]
  /\ isna (Amount row) = true
  /\ exists k,
       plot_nutrition df (module_state None None)
       = Vis (st_plotly_chart {| data_frame := [row];
                                 fig_x := "Nutrient"; fig_y := "Amount";
                                 fig_color := "Food"; fig_barmode := "group" |}) k.
Proof.
  repeat split. eexists. reflexivity.
Qed.

(** C7, amended.  A wide table with the food column, [n] rows and [m]
    nutrient columns (none of them labelled "Food" or "Amount") reshapes
    into exactly [n * m] rows, one block per nutrient column, and the chart
    is drawn from them; every row has a non-null food, nutrient and amount
    provided the wide table has no null food, label or cell. *)
Theorem melt_long_form
    (before after : frame) (foods : list value) (n m : nat) (g : globals) :
  List.length foods = n ->
  List.length (before ++ after)%list = m ->
  (forall c, In c (before ++ after)%list ->
             List.length (snd c) = n /\
             key_eqb (fst c) (VStr "Food") = false /\
             key_eqb (fst c) (VStr "Amount") = false) ->
  exists rows,
    melt (before ++ (VStr "Food", foods) :: after)%list "Food" "Amount" = Ok rows /\
    rows = flat_map (block foods) (before ++ after)%list /\
    List.length rows = (n * m)%nat /\
    (exists k,
       plot_nutrition (before ++ (VStr "Food", foods) :: after)%list g
       = Vis (st_plotly_chart {| data_frame := rows;
                                 fig_x := "Nutrient"; fig_y := "Amount";
                                 fig_color := "Food"; fig_barmode := "group" |}) k) /\
    ((forall f, In f foods -> isna f = false) ->
     (forall c, In c (before ++ after)%list ->
                isna (fst c) = false /\ forall a, In a (snd c) -> isna a = false) ->
     forall row, In row rows ->
                 isna (Food row) = false /\ isna (Nutrient row) = false
                 /\ isna (Amount row) = false).
Proof.
  intros Hn Hm Hcols.
  assert (Hmelt : melt (before ++ (VStr "Food", foods) :: after)%list "Food" "Amount"
                  = Ok (flat_map (block foods) (before ++ after)%list)).
  { apply melt_wide. intros c Hc. destruct (Hcols c Hc) as [_ H]. exact H. }
  exists (flat_map (block foods) (before ++ after)%list).
  split; [exact Hmelt|]. split; [reflexivity|]. split; [|split].
  - rewrite (flat_map_blocks _ _ _ n), Hm; [reflexivity|].
    intros c Hc. unfold block. rewrite length_map, length_combine.
    rewrite Hn, (proj1 (Hcols c Hc)). apply Nat.min_id.
  - unfold plot_nutrition, bind, lift, trigger. rewrite Hmelt.
    cbn [pbind fst snd]. eexists. reflexivity.
  - intros Hfoods Hcells row Hrow.
    apply in_flat_map in Hrow. destruct Hrow as [c [Hc Hrow]].
    unfold block in Hrow. apply in_map_iff in Hrow.
    destruct Hrow as [[f a] [<- Hfa]]. cbn [Food Nutrient Amount fst snd].
    destruct (Hcells c Hc) as [Hlabel Hcol].
    pose proof (in_combine_l _ _ _ _ Hfa). pose proof (in_combine_r _ _ _ _ Hfa).
    auto.
Qed.

Lemma melt_long_form_witness :
  exists rows,
    melt [ (VStr "Food", [VStr "Bananas, raw"; VStr "Apples, raw"]);
           (VStr "Protein", [VFloat 1.09; VFloat 0.26]);
           (VStr "Water", [VFloat 74.91; VFloat 85.56]);
           (VStr "Energy", [VInt 89; VInt 52]) ] "Food" "Amount" = Ok rows
    /\ List.length rows = 6%nat.
Proof.
  destruct (melt_long_form []
              [ (VStr "Protein", [VFloat 1.09; VFloat 0.26]);
                (VStr "Water", [VFloat 74.91; VFloat 85.56]);
                (VStr "Energy", [VInt 89; VInt 52]) ]
              [VStr "Bananas, raw"; VStr "Apples, raw"] 2 3
              (module_state None None))
    as [rows [Hmelt [_ [Hlen _]]]].
  - reflexivity.
  - reflexivity.
  - simpl. intros c [<-|[<-|[<-|[]]]]; repeat split.
  - exists rows. split; assumption.
Defined.

(** ** The page and the food database *)

Section Fetches.

Variable P : string -> Prop.

Lemma every_fetch_pbind {A B} (p : prog A) (f : A -> prog B) :
  every_fetch P p -> (forall a, every_fetch P (f a)) ->
  every_fetch P (pbind p f).
Proof.
  intros Hp Hf. induction p as [a|X ev k IH]; simpl.
  - apply Hf.
  - destruct Hp as [Hev Hk]. split; [exact Hev|].
    intros r. apply IH, Hk.
Qed.

Lemma every_fetch_bind {A B} (m : M A) (f : A -> M B) (g : globals) :
  every_fetch P (m g) -> (forall a g', every_fetch P (f a g')) ->
  every_fetch P (bind m f g).
Proof.
  intros Hm Hf. unfold bind. apply every_fetch_pbind; [exact Hm|].
  intros [[a|e] g']; simpl; [apply Hf | exact I].
Qed.

Lemma every_fetch_try {A} (body : M A) (handler : exn -> M A) (g : globals) :
  every_fetch P (body g) -> (forall e g', every_fetch P (handler e g')) ->
  every_fetch P (try_except body handler g).
Proof.
  intros Hbody Hhandler. unfold try_except.
  apply every_fetch_pbind; [exact Hbody|].
  intros [[a|e] g']; simpl; [exact I|].
  destruct (is_Exception (exn_type e)); [apply Hhandler | exact I].
Qed.

Lemma every_fetch_lift {A} (o : outcome A) (g : globals) :
  every_fetch P (lift o g).
Proof. exact I. Qed.

Lemma every_fetch_ret {A} (a : A) (g : globals) : every_fetch P (ret a g).
Proof. exact I. Qed.

Lemma every_fetch_global {A} (name : globals -> A) (g : globals) :
  every_fetch P (global name g).
Proof. exact I. Qed.

Lemma every_fetch_trigger {X} (ev : event X) (g : globals) :
  fetched ev = None -> every_fetch P (trigger ev g).
Proof. intros Hev. simpl. rewrite Hev. split; [exact I | intros r; exact I]. Qed.

Lemma get_ai_insight_fetches_nothing (prompt : string) (g : globals) :
  every_fetch P (get_ai_insight prompt g).
Proof.
  unfold get_ai_insight. apply every_fetch_try.
  - apply every_fetch_bind; [now apply every_fetch_trigger|].
    intros got g1. apply every_fetch_bind; [apply every_fetch_lift|].
    intros response g2. apply every_fetch_bind; [apply every_fetch_lift|].
    intros first g3. apply every_fetch_ret.
  - intros e g'. apply every_fetch_ret.
Qed.

Lemma plot_nutrition_fetches_nothing (df : frame) (g : globals) :
  every_fetch P (plot_nutrition df g).
Proof.
  unfold plot_nutrition. apply every_fetch_bind; [apply every_fetch_lift|].
  intros long g'. now apply every_fetch_trigger.
Qed.

Lemma calculate_calories_burned_fetches_nothing (w e d : value) (g : globals) :
  every_fetch P (calculate_calories_burned w e d g).
Proof.
  unfold calculate_calories_burned.
  apply every_fetch_bind; [apply every_fetch_global|]. intros table g1.
  apply every_fetch_bind; [apply every_fetch_lift|]. intros known g2.
  destruct (negb known); [apply every_fetch_ret|].
  apply every_fetch_bind; [apply every_fetch_global|]. intros table' g3.
  apply every_fetch_bind; [apply every_fetch_lift|]. intros met g4.
  apply every_fetch_bind; [apply every_fetch_lift|]. intros calories g5.
  apply every_fetch_ret.
Qed.

(** The lookup fetches one URL, the one built from its query and the
    key. *)
Lemma search_food_usda_fetches (query : string) (g : globals) :
  P (usda_url query (USDA_API_KEY g)) ->
  every_fetch P (search_food_usda query g).
Proof.
  intros Hurl. unfold search_food_usda.
  unfold bind at 1. unfold global. cbn [pbind fst snd].
  apply every_fetch_bind.
  - simpl. split; [exact Hurl | intros r; exact I].
  - intros got g1. apply every_fetch_bind; [apply every_fetch_lift|].
    intros response g2. destruct (status_code response =? 200);
      [|apply every_fetch_ret].
    apply every_fetch_bind; [apply every_fetch_lift|].
    intros data g3. apply every_fetch_bind; [apply every_fetch_lift|].
    intros present g4. apply every_fetch_bind.
    + destruct present; [|apply every_fetch_ret].
      apply every_fetch_bind; [apply every_fetch_lift|].
      intros foods g5. apply every_fetch_bind; [apply every_fetch_lift|].
      intros n g6. apply every_fetch_ret.
    + intros nonempty g5. destruct nonempty;
        [apply every_fetch_lift | apply every_fetch_ret].
Qed.

End Fetches.

Ltac no_fetch :=
  repeat first
    [ apply every_fetch_ret
    | apply every_fetch_lift
    | apply every_fetch_global
    | apply get_ai_insight_fetches_nothing
    | apply plot_nutrition_fetches_nothing
    | apply calculate_calories_burned_fetches_nothing
    | apply every_fetch_trigger; reflexivity
    | apply every_fetch_bind; [|intros ? ?]
    | match goal with
      | |- every_fetch _ ((if ?b then _ else _) _) => destruct b
      end ].

(** C9. The Food Insights tab starts by reading the query.  On the empty
    string it stops there: no call to the food database, nothing shown, the
    module state as it was.  Whatever the query and the answers of the
    environment, every call the tab makes to the food database carries a
    non-empty query, the one typed; the other two tabs make none. *)
Theorem food_tab_empty_query (py_str : value -> string) (g : globals) :
  exists k,
    food_tab py_str g = Vis (st_text_input "Enter a food item:" "") k /\
    k "" = Ret (Ok tt, g) /\
    silent (k "") /\
    (forall food_query,
        every_fetch (fun url => food_query <> ""
                                /\ url = usda_url food_query (USDA_API_KEY g))
                    (k food_query)) /\
    every_fetch (fun _ => False) (exercise_tab py_str g) /\
    every_fetch (fun _ => False) (meal_planner_tab py_str g).
Proof.
  eexists. split; [reflexivity|]. split; [reflexivity|]. split; [exact I|].
  split; [|split].
  - intros food_query. cbn [pbind fst snd].
    destruct (truthy (VStr food_query)) eqn:Hquery; [|exact I].
    assert (Hne : food_query <> "").
    { intros ->. discriminate Hquery. }
    apply every_fetch_bind.
    + apply search_food_usda_fetches. split; [exact Hne | reflexivity].
    + intros foods g1. no_fetch.
  - unfold exercise_tab. no_fetch.
  - unfold meal_planner_tab. no_fetch.
Qed.

(** * Further properties of the code *)

(** ** Runs and traces of composed computations *)

Section Runs.

Variable env : environment.

Lemma run_pbind {A B} (p : prog A) (f : A -> prog B) :
  run env (pbind p f) = run env (f (run env p)).
Proof. induction p as [a|X ev k IH]; simpl; [reflexivity | apply IH]. Qed.

Lemma trace_pbind {A B} (p : prog A) (f : A -> prog B) :
  trace env (pbind p f) = (trace env p ++ trace env (f (run env p)))%list.
Proof.
  induction p as [a|X ev k IH]; simpl; [reflexivity|].
  destruct (observe ev); simpl; now rewrite IH.
Qed.

Lemma run_bind_ok {A B} (m : M A) (f : A -> M B) (g g' : globals) (a : A) :
  run env (m g) = (Ok a, g') -> run env (bind m f g) = run env (f a g').
Proof. intros Hm. unfold bind. now rewrite run_pbind, Hm. Qed.

Lemma run_bind_err {A B} (m : M A) (f : A -> M B) (g g' : globals) (e : exn) :
  run env (m g) = (Err e, g') -> run env (bind m f g) = (Err e, g').
Proof. intros Hm. unfold bind. now rewrite run_pbind, Hm. Qed.

Lemma trace_bind_ok {A B} (m : M A) (f : A -> M B) (g g' : globals) (a : A) :
  run env (m g) = (Ok a, g') ->
  trace env (bind m f g) = (trace env (m g) ++ trace env (f a g'))%list.
Proof. intros Hm. unfold bind. now rewrite trace_pbind, Hm. Qed.

Lemma trace_bind_err {A B} (m : M A) (f : A -> M B) (g g' : globals) (e : exn) :
  run env (m g) = (Err e, g') ->
  trace env (bind m f g) = trace env (m g).
Proof.
  intros Hm. unfold bind. rewrite trace_pbind, Hm. simpl. apply app_nil_r.
Qed.

End Runs.

Ltac case_run :=
  repeat (cbn [pbind run trace observe fst snd negb];
          try reflexivity;
          match goal with
          | |- context [match ?scrutinee with Ok _ => _ | Err _ => _ end] =>
              destruct scrutinee eqn:?
          | |- context [if ?b then _ else _] => destruct b eqn:?
          end).

(** ** Food lookup *)

Lemma search_food_usda_state (env : environment) (query : string) (g : globals) :
  snd (run env (search_food_usda query g)) = g.
Proof. unfold search_food_usda. step_run. case_run. Qed.

Lemma search_food_usda_trace (env : environment) (query : string) (g : globals) :
  trace env (search_food_usda query g)
  = [Fetched (usda_url query (USDA_API_KEY g))].
Proof. unfold search_food_usda. step_run. case_run. Qed.

Lemma sized_is_truthy (v : value) (n : Z) :
  py_len v = Ok n -> n > 0 -> truthy v = true.
Proof.
  destruct v as [| | | |s|l|d]; simpl; try discriminate; intros [= <-] Hn.
  - destruct s; [simpl in Hn; lia | reflexivity].
  - destruct l; [simpl in Hn; lia | reflexivity].
  - destruct d; [simpl in Hn; lia | reflexivity].
Qed.

(** X1. When [requests.get] itself raises (no connection, time-out), the
    lookup does not turn the failure into an empty result: the exception
    leaves [search_food_usda] as it came, the module state untouched. *)
Theorem search_food_usda_network_failure
    (env : environment) (query : string) (g : globals) (e : exn) :
  env _ (requests_get (usda_url query (USDA_API_KEY g))) = Err e ->
  run env (search_food_usda query g) = (Err e, g).
Proof.
  intros Henv. unfold search_food_usda. step_run. rewrite Henv. reflexivity.
Qed.

Lemma search_food_usda_network_failure_witness :
  run (quiet_environment (Err (Exn RequestException "Connection refused"))
                         (Ok {| choices := [] |}))
      (search_food_usda "banana" (module_state None None))
  = (Err (Exn RequestException "Connection refused"), module_state None None).
Proof.
  apply (search_food_usda_network_failure
           (quiet_environment (Err (Exn RequestException "Connection refused"))
                              (Ok {| choices := [] |}))
           "banana" (module_state None None)).
  reflexivity.
Defined.

(** X2. Whatever the food database answers (a failure, a refusal, a body
    of any shape), one lookup makes exactly one request, to the URL built
    from the query and the key: it never retries, calls nothing else,
    shows nothing, and leaves the module state as it found it. *)
Theorem search_food_usda_one_request
    (env : environment) (query : string) (g : globals) :
  trace env (search_food_usda query g)
  = [Fetched (usda_url query (USDA_API_KEY g))]
  /\ snd (run env (search_food_usda query g)) = g.
Proof.
  split; [apply search_food_usda_trace | apply search_food_usda_state].
Qed.

(** X3. What the lookup returns is either the empty list or a value with
    a positive length, hence a true one: its caller can branch on it and
    take its [len] without an error. *)
Theorem search_food_usda_result_sized
    (env : environment) (query : string) (g : globals) (v : value) :
  fst (run env (search_food_usda query g)) = Ok v ->
  v = VList [] \/ (truthy v = true /\ exists n, py_len v = Ok n /\ n > 0).
Proof.
  unfold search_food_usda. step_run.
  destruct (env _ (requests_get (usda_url query (USDA_API_KEY g)))) as [resp|e];
    step_run; [|discriminate].
  destruct (status_code resp =? 200); step_run; [|intros [= <-]; now left].
  destruct (json resp) as [data|e]; step_run; [|discriminate].
  destruct (py_contains "foods" data) as [[|]|e]; step_run;
    [| intros [= <-]; now left | discriminate].
  destruct (py_getitem data "foods") as [foods|e]; step_run; [|discriminate].
  destruct (py_len foods) as [n|e] eqn:Hlen; step_run; [|discriminate].
  destruct (n >? 0) eqn:Hn; step_run; [|intros [= <-]; now left].
  intros [= <-]. right. apply Z.gtb_lt in Hn.
  split; [apply (sized_is_truthy foods n Hlen); lia|].
  exists n. split; [exact Hlen | lia].
Qed.

Lemma search_food_usda_result_sized_witness :
  VList [VDict [(VStr "description", VStr "Banana")]] = VList []
  \/ (truthy (VList [VDict [(VStr "description", VStr "Banana")]]) = true
      /\ exists n, py_len (VList [VDict [(VStr "description", VStr "Banana")]]) = Ok n
                   /\ n > 0).
Proof.
  apply (search_food_usda_result_sized
           (quiet_environment
              (Ok {| status_code := 200;
                     json := Ok (VDict [(VStr "foods",
                                         VList [VDict [(VStr "description",
                                                        VStr "Banana")]])]) |})
              (Ok {| choices := [] |}))
           "banana" (module_state None None)).
  reflexivity.
Defined.

(** X4. A 200 response is read without a check of its shape.  A body that
    is a JSON [null], number or boolean raises a [TypeError] at
    ["foods" in data]; so does an object whose [foods] is [null], a number
    or a boolean, at [len]; a JSON array that does not hold the string
    "foods" gives the empty list. *)
Theorem search_food_usda_unexpected_shape
    (env : environment) (query : string) (g : globals) (resp : response) :
  env _ (requests_get (usda_url query (USDA_API_KEY g))) = Ok resp ->
  status_code resp = 200 ->
  (forall data, json resp = Ok data ->
     data = VNone \/ as_number data <> None ->
     exists e, run env (search_food_usda query g) = (Err e, g)
               /\ exn_type e = TypeError)
  /\ (forall d foods, json resp = Ok (VDict d) ->
        dict_find (VStr "foods") d = Some foods ->
        foods = VNone \/ as_number foods <> None ->
        exists e, run env (search_food_usda query g) = (Err e, g)
                  /\ exn_type e = TypeError)
  /\ (forall l, json resp = Ok (VList l) ->
        existsb (key_eqb (VStr "foods")) l = false ->
        run env (search_food_usda query g) = (Ok (VList []), g)).
Proof.
  intros Henv Hstatus. unfold search_food_usda. step_run.
  rewrite Henv. step_run. rewrite Hstatus. cbn [Z.eqb Pos.eqb].
  repeat split.
  - intros data -> Hshape. step_run.
    destruct data; try (eexists; split; reflexivity);
      destruct Hshape as [Hnone|Hnum]; try discriminate Hnone;
      exfalso; now apply Hnum.
  - intros d foods -> Hfoods Hshape. step_run.
    unfold py_contains, py_getitem, dict_contains, dict_getitem.
    cbn [hashable]. rewrite Hfoods. step_run.
    destruct foods; try (eexists; split; reflexivity);
      destruct Hshape as [Hnone|Hnum]; try discriminate Hnone;
      exfalso; now apply Hnum.
  - intros l -> Habsent. step_run. unfold py_contains. rewrite Habsent.
    reflexivity.
Qed.

Lemma search_food_usda_unexpected_shape_witness :
  exists e,
    run (quiet_environment (Ok {| status_code := 200; json := Ok VNone |})
                           (Ok {| choices := [] |}))
        (search_food_usda "banana" (module_state None None))
    = (Err e, module_state None None)
    /\ exn_type e = TypeError.
Proof.
  refine (proj1 (search_food_usda_unexpected_shape
                   (quiet_environment (Ok {| status_code := 200; json := Ok VNone |})
                                      (Ok {| choices := [] |}))
                   "banana" (module_state None None)
                   {| status_code := 200; json := Ok VNone |} eq_refl eq_refl)
                VNone eq_refl (or_introl eq_refl)).
Defined.

(** ** Narrative insight *)

Lemma get_ai_insight_trace (env : environment) (prompt : string) (g : globals) :
  trace env (get_ai_insight prompt g) = [Asked (insight_request prompt)].
Proof.
  unfold get_ai_insight, try_except. step_run. case_run.
Qed.

Lemma get_ai_insight_run (env : environment) (prompt : string) (g : globals) :
  (forall e, env _ (chat_completions_create (insight_request prompt)) = Err e ->
             is_Exception (exn_type e) = true) ->
  run env (get_ai_insight prompt g)
  = (Ok (insight_text (env _ (chat_completions_create (insight_request prompt)))), g).
Proof.
  intros Hfail. unfold get_ai_insight, try_except, insight_text. step_run.
  destruct (env _ (chat_completions_create (insight_request prompt)))
    as [response|e]; step_run.
  - destruct (choices response); reflexivity.
  - rewrite (Hfail e eq_refl). reflexivity.
Qed.

(** X5. The handler of [get_ai_insight] is [except Exception]: what the
    completion call raises outside that class (an interrupt, an exit
    request) is not turned into an "AI API Error" string; it leaves the
    function as it came. *)
Theorem get_ai_insight_interrupt_passes
    (env : environment) (prompt : string) (g : globals) (e : exn) :
  env _ (chat_completions_create (insight_request prompt)) = Err e ->
  is_Exception (exn_type e) = false ->
  run env (get_ai_insight prompt g) = (Err e, g).
Proof.
  intros Henv Hclass. unfold get_ai_insight, try_except. step_run.
  rewrite Henv. step_run. rewrite Hclass. reflexivity.
Qed.

Lemma get_ai_insight_interrupt_passes_witness :
  run (quiet_environment (Err (Exn RequestException "unused"))
                         (Err (Exn KeyboardInterrupt "")))
      (get_ai_insight "Is a banana healthy?" (module_state None None))
  = (Err (Exn KeyboardInterrupt ""), module_state None None).
Proof.
  apply (get_ai_insight_interrupt_passes
           (quiet_environment (Err (Exn RequestException "unused"))
                              (Err (Exn KeyboardInterrupt "")))
           "Is a banana healthy?" (module_state None None)
           (Exn KeyboardInterrupt "")); reflexivity.
Defined.

(** X6. Whatever the completion service answers, one call of
    [get_ai_insight] sends exactly one request: the fixed model, system
    message, temperature and token limit with the prompt as the user
    message.  A failure is not retried, and nothing is fetched or shown. *)
Theorem get_ai_insight_one_request
    (env : environment) (prompt : string) (g : globals) :
  trace env (get_ai_insight prompt g)
  = [Asked {| model := "gpt-4o-mini";
              messages :=
                [ {| role := "system";
                     content := "You are a helpful nutrition and fitness assistant." |};
                  {| role := "user"; content := prompt |} ];
              temperature := 0.7;
              max_tokens := 500 |}]
  /\ snd (run env (get_ai_insight prompt g)) = g.
Proof.
  split; [apply get_ai_insight_trace|].
  unfold get_ai_insight, try_except. step_run. case_run.
Qed.

(** ** The calorie estimate *)

Lemma calculate_calories_burned_known
    (usda openai : option string) (name : string) (met : float) (w d : value) :
  In (VStr name, VFloat met) EXERCISE_MET_table ->
  calculate_calories_burned w (VStr name) d (module_state usda openai)
  = Ret (match met_formula (VFloat met) w d with
         | Ok calories => Ok (VFloat (Float64.round2 calories))
         | Err e => Err e
         end, module_state usda openai).
Proof.
  intros Hin.
  unfold calculate_calories_burned, bind, global, lift, ret.
  simpl in Hin.
  repeat (destruct Hin as [Heq|Hin];
          [ injection Heq as <- <-; cbn [pbind fst snd];
            match goal with
            | |- context [dict_contains ?k ?t] =>
                change (dict_contains k t) with (@Ok bool true)
            end;
            cbn [pbind fst snd negb];
            match goal with
            | |- context [dict_getitem ?k ?t] =>
                let v := eval vm_compute in (dict_getitem k t) in
                change (dict_getitem k t) with v
            end;
            cbn [pbind fst snd];
            match goal with
            | |- context [met_formula ?m w d] => destruct (met_formula m w d)
            end; reflexivity | ]).
  contradiction.
Qed.

(** X7. For an exercise of the Energy Table the arithmetic is applied to
    the weight and the duration as they come: when the weight is not a
    number, or the weight is one and the duration is not, the call raises
    a [TypeError] (an unknown exercise returns 0 for the same arguments). *)
Theorem calculate_calories_burned_not_a_number
    (usda openai : option string) (name : string) (met : float) (w d : value) :
  In (VStr name, VFloat met) EXERCISE_MET_table ->
  as_number w = None \/ (is_ok (to_float w) = true /\ as_number d = None) ->
  exists e,
    calculate_calories_burned w (VStr name) d (module_state usda openai)
    = Ret (Err e, module_state usda openai)
    /\ exn_type e = TypeError.
Proof.
  intros Hin Hbad. rewrite (calculate_calories_burned_known _ _ _ _ _ _ Hin).
  unfold met_formula, mul_float, float_mul.
  cbn [to_float as_number obind].
  destruct Hbad as [Hw|[Hw Hd]].
  - unfold to_float at 1. rewrite Hw. cbn [obind].
    eexists. split; reflexivity.
  - destruct (to_float w) as [wf|]; [|discriminate Hw]. cbn [obind].
    unfold to_float. rewrite Hd. cbn [obind].
    eexists. split; reflexivity.
Qed.

Lemma calculate_calories_burned_not_a_number_witness :
  exists e,
    calculate_calories_burned (VStr "70") (VStr "Yoga") (VInt 30)
                              (module_state None None)
    = Ret (Err e, module_state None None)
    /\ exn_type e = TypeError.
Proof.
  apply (calculate_calories_burned_not_a_number None None "Yoga" 2.5
           (VStr "70") (VInt 30)).
  - simpl. tauto.
  - left. reflexivity.
Defined.

(** X8. The membership test comes first and hashes the exercise: a list
    or a dict as the exercise raises a [TypeError] whatever the table, the
    weight and the duration are, where an unknown name returns 0. *)
Theorem calculate_calories_burned_unhashable (w e d : value) (g : globals) :
  hashable e = false ->
  exists x,
    calculate_calories_burned w e d g = Ret (Err x, g)
    /\ exn_type x = TypeError.
Proof.
  intros He. exists (unhashable e). split; [|reflexivity].
  unfold calculate_calories_burned, bind, global, lift, ret, dict_contains.
  cbn [pbind fst snd]. rewrite He. reflexivity.
Qed.

Lemma calculate_calories_burned_unhashable_witness :
  exists x,
    calculate_calories_burned (VInt 70) (VList [VStr "Yoga"]) (VInt 30)
                              (module_state None None)
    = Ret (Err x, module_state None None)
    /\ exn_type x = TypeError.
Proof.
  apply (calculate_calories_burned_unhashable (VInt 70) (VList [VStr "Yoga"])
           (VInt 30) (module_state None None)).
  reflexivity.
Defined.

(** ** The tabs *)

Lemma EXERCISE_MET_options (k : value) :
  In k (map fst EXERCISE_MET_table) ->
  exists name met, k = VStr name /\ In (VStr name, VFloat met) EXERCISE_MET_table.
Proof.
  simpl. intros H.
  repeat (destruct H as [<-|H];
          [do 2 eexists; split; [reflexivity | simpl; tauto]|]).
  contradiction.
Qed.

Lemma met_formula_numbers (met wf df : float) (w d : value) :
  to_float w = Ok wf -> to_float d = Ok df ->
  met_formula (VFloat met) w d = Ok (met * 3.5 * wf / 200 * df)%float.
Proof.
  intros Hw Hd. unfold met_formula, mul_float, float_mul.
  cbn [to_float as_number obind]. rewrite Hw. cbn [obind]. rewrite Hd.
  reflexivity.
Qed.

Lemma run_trigger (env : environment) {X} (ev : event X) (g : globals) :
  run env (trigger ev g) = (Ok (env _ ev), g).
Proof. reflexivity. Qed.

Lemma trace_trigger (env : environment) {X} (ev : event X) (g : globals) :
  trace env (trigger ev g) = match observe ev with Some c => [c] | None => [] end.
Proof. unfold trigger. simpl. now destruct (observe ev). Qed.

Lemma run_shown (env : environment) (ev : event unit) (g : globals) :
  run env (trigger ev g) = (Ok tt, g).
Proof. rewrite run_trigger. now destruct (env unit ev). Qed.

Lemma search_food_usda_run (env : environment) (query : string) (g : globals) :
  run env (search_food_usda query g)
  = (fst (run env (search_food_usda query g)), g).
Proof.
  rewrite <- (search_food_usda_state env query g) at 3.
  apply surjective_pairing.
Qed.

Lemma nonempty_is_truthy (s : string) : s <> "" -> truthy (VStr s) = true.
Proof.
  intros Hs. simpl. destruct (String.eqb_spec s ""); [contradiction | reflexivity].
Qed.

(** X10. In the Meal Planner tab no request leaves before the button is
    pressed.  On a press one request is sent, with the prompt built from
    the two answers, and its outcome is written under the subheader: the
    generated plan, or the "AI API Error" text when the service fails, in
    the same place and without raising. *)
Theorem meal_planner_tab_shows_plan
    (py_str : value -> string) (env : environment) (g : globals) :
  let daily_calories := env _ (st_number_input "Target daily calories:" 1200 4000 2000) in
  let diet_type :=
    env _ (st_selectbox "Diet preference:"
             [VStr "Balanced"; VStr "Vegetarian"; VStr "Vegan";
              VStr "Keto"; VStr "High-Protein"]) in
  let prompt :=
    "Create a " ++ py_str diet_type ++ " meal plan for 1 day with around "
    ++ py_str (VInt daily_calories)
    ++ " calories. Show breakfast, lunch, dinner, and snacks." in
  (forall e, env _ (chat_completions_create (insight_request prompt)) = Err e ->
             is_Exception (exn_type e) = true) ->
  run env (meal_planner_tab py_str g) = (Ok tt, g) /\
  trace env (meal_planner_tab py_str g)
  = ShownText (VStr "### AI-Powered Meal Planner")
    :: if env _ (st_button "Generate Meal Plan")
       then [ Asked (insight_request prompt);
              ShownSubheader "🍽️ Your AI Meal Plan";
              ShownText (insight_text
                           (env _ (chat_completions_create (insight_request prompt)))) ]
       else [].
Proof.
  intros daily_calories diet_type prompt Hfail.
  pose proof (get_ai_insight_run env prompt g Hfail) as Hrun.
  pose proof (get_ai_insight_trace env prompt g) as Htrace.
  unfold meal_planner_tab.
  rewrite (run_bind_ok env _ _ g g tt (run_shown env _ g)).
  rewrite (trace_bind_ok env _ _ g g tt (run_shown env _ g)), trace_trigger.
  rewrite (run_bind_ok env _ _ g g _ (run_trigger env _ g)).
  rewrite (trace_bind_ok env _ _ g g _ (run_trigger env _ g)), trace_trigger.
  rewrite (run_bind_ok env _ _ g g _ (run_trigger env _ g)).
  rewrite (trace_bind_ok env _ _ g g _ (run_trigger env _ g)), trace_trigger.
  rewrite (run_bind_ok env _ _ g g _ (run_trigger env _ g)).
  rewrite (trace_bind_ok env _ _ g g _ (run_trigger env _ g)), trace_trigger.
  cbn [observe app]. fold daily_calories diet_type. fold prompt.
  destruct (env bool (st_button "Generate Meal Plan")).
  - rewrite (run_bind_ok env _ _ g g _ Hrun).
    rewrite (trace_bind_ok env _ _ g g _ Hrun), Htrace.
    rewrite (run_bind_ok env _ _ g g tt (run_shown env _ g)).
    rewrite (trace_bind_ok env _ _ g g tt (run_shown env _ g)), !trace_trigger.
    split; [apply run_shown | reflexivity].
  - split; reflexivity.
Qed.

Lemma meal_planner_tab_shows_plan_witness :
  trace (pressing (Err (Exn RequestException "unused"))
                  (Err (Exn OpenAIError "Error code: 429")))
        (meal_planner_tab sketch (module_state None None))
  = [ ShownText (VStr "### AI-Powered Meal Planner");
      Asked (insight_request
               "Create a Balanced meal plan for 1 day with around 2000 calories. Show breakfast, lunch, dinner, and snacks.");
      ShownSubheader "🍽️ Your AI Meal Plan";
      ShownText (VStr "AI API Error: Error code: 429") ].
Proof.
  refine (proj2 (meal_planner_tab_shows_plan sketch
                   (pressing (Err (Exn RequestException "unused"))
                             (Err (Exn OpenAIError "Error code: 429")))
                   (module_state None None) _)).
  intros e He. injection He as <-. reflexivity.
Defined.

Lemma consulted_pbind (env : environment) {A B} (p : prog A) (f : A -> prog B) :
  consulted env (pbind p f)
  = (consulted env p ++ consulted env (f (run env p)))%list.
Proof.
  induction p as [a|X ev k IH]; simpl; [reflexivity|].
  destruct (widget ev); simpl; now rewrite IH.
Qed.

Lemma consulted_bind_ok (env : environment) {A B} (m : M A) (f : A -> M B)
    (g g' : globals) (a : A) :
  run env (m g) = (Ok a, g') ->
  consulted env (bind m f g) = (consulted env (m g) ++ consulted env (f a g'))%list.
Proof. intros Hm. unfold bind. now rewrite consulted_pbind, Hm. Qed.

Lemma consulted_trigger (env : environment) {X} (ev : event X) (g : globals) :
  consulted env (trigger ev g)
  = match widget ev with Some label => [label] | None => [] end.
Proof. unfold trigger. simpl. now destruct (widget ev). Qed.

Lemma search_food_usda_consults_nothing
    (env : environment) (query : string) (g : globals) :
  consulted env (search_food_usda query g) = [].
Proof.
  unfold search_food_usda. step_run.
  repeat (cbn [pbind run consulted widget fst snd negb];
          try reflexivity;
          match goal with
          | |- context [match ?scrutinee with Ok _ => _ | Err _ => _ end] =>
              destruct scrutinee eqn:?
          | |- context [if ?b then _ else _] => destruct b eqn:?
          end).
Qed.

(** X11. In the Food Insights tab, a non-empty query whose lookup comes
    back empty ends the tab after one request and one message, "No results
    found. Try another food name.": the text input is the only widget
    read, so no selection is offered, the completion service is not
    called, no chart is drawn, and nothing raises. *)
Theorem food_tab_no_results
    (py_str : value -> string) (env : environment) (g : globals) (foods : value) :
  let food_query := env _ (st_text_input "Enter a food item:" "") in
  food_query <> "" ->
  fst (run env (search_food_usda food_query g)) = Ok foods ->
  truthy foods = false ->
  run env (food_tab py_str g) = (Ok tt, g) /\
  trace env (food_tab py_str g)
  = [ Fetched (usda_url food_query (USDA_API_KEY g));
      ShownError "No results found. Try another food name." ] /\
  consulted env (food_tab py_str g) = ["Enter a food item:"].
Proof.
  intros food_query Hquery Hfoods Hempty.
  pose proof (search_food_usda_run env food_query g) as Hsearch.
  rewrite Hfoods in Hsearch.
  unfold food_tab.
  rewrite (run_bind_ok env _ _ g g _ (run_trigger env _ g)).
  rewrite (trace_bind_ok env _ _ g g _ (run_trigger env _ g)), trace_trigger.
  rewrite (consulted_bind_ok env _ _ g g _ (run_trigger env _ g)), consulted_trigger.
  cbn [observe widget app]. fold food_query.
  rewrite (nonempty_is_truthy food_query Hquery).
  rewrite (run_bind_ok env _ _ g g _ Hsearch).
  rewrite (trace_bind_ok env _ _ g g _ Hsearch), search_food_usda_trace.
  rewrite (consulted_bind_ok env _ _ g g _ Hsearch), search_food_usda_consults_nothing.
  rewrite Hempty, trace_trigger, consulted_trigger.
  split; [apply run_shown | split; reflexivity].
Qed.

Lemma food_tab_no_results_witness :
  run (answers_query "zzzz" (Ok {| status_code := 404; json := Ok VNone |}))
      (food_tab sketch (module_state None None))
  = (Ok tt, module_state None None)
  /\ consulted (answers_query "zzzz" (Ok {| status_code := 404; json := Ok VNone |}))
               (food_tab sketch (module_state None None))
     = ["Enter a food item:"].
Proof.
  destruct (food_tab_no_results sketch
              (answers_query "zzzz" (Ok {| status_code := 404; json := Ok VNone |}))
              (module_state None None) (VList [])) as [Hrun [_ Hread]].
  - discriminate.
  - reflexivity.
  - reflexivity.
  - split; assumption.
Defined.

(** X12. The tabs run one after the other in one script, and the lookup
    is not guarded: with a non-empty query, an exception of the lookup
    (no connection, a body that does not parse) ends the whole run with
    that exception after the one request.  Nothing is shown, and the
    Exercise Tracker and Meal Planner tabs are not reached. *)
Theorem tabs_body_lookup_failure
    (py_str : value -> string) (env : environment) (g : globals) (e : exn) :
  let food_query := env _ (st_text_input "Enter a food item:" "") in
  food_query <> "" ->
  fst (run env (search_food_usda food_query g)) = Err e ->
  run env (tabs_body py_str g) = (Err e, g) /\
  trace env (tabs_body py_str g)
  = [ Fetched (usda_url food_query (USDA_API_KEY g)) ].
Proof.
  intros food_query Hquery Hfails.
  pose proof (search_food_usda_run env food_query g) as Hsearch.
  rewrite Hfails in Hsearch.
  assert (Hfood : run env (food_tab py_str g) = (Err e, g)
                  /\ trace env (food_tab py_str g)
                     = [Fetched (usda_url food_query (USDA_API_KEY g))]).
  { unfold food_tab.
    rewrite (run_bind_ok env _ _ g g _ (run_trigger env _ g)).
    rewrite (trace_bind_ok env _ _ g g _ (run_trigger env _ g)), trace_trigger.
    cbn [observe app]. fold food_query.
    rewrite (nonempty_is_truthy food_query Hquery).
    rewrite (run_bind_err env _ _ g g _ Hsearch).
    rewrite (trace_bind_err env _ _ g g _ Hsearch), search_food_usda_trace.
    split; reflexivity. }
  destruct Hfood as [Hrun Htrace]. unfold tabs_body.
  rewrite (run_bind_err env _ _ g g _ Hrun).
  rewrite (trace_bind_err env _ _ g g _ Hrun).
  split; [reflexivity | exact Htrace].
Qed.

Lemma tabs_body_lookup_failure_witness :
  trace (answers_query "banana" (Err (Exn RequestException "Connection refused")))
        (tabs_body (fun _ => "?") (module_state (Some "DEMO_KEY") None))
  = [ Fetched "https://api.nal.usda.gov/fdc/v1/foods/search?query=banana&api_key=DEMO_KEY" ].
Proof.
  refine (proj2 (tabs_body_lookup_failure (fun _ => "?")
                   (answers_query "banana" (Err (Exn RequestException "Connection refused")))
                   (module_state (Some "DEMO_KEY") None)
                   (Exn RequestException "Connection refused") _ eq_refl)).
  discriminate.
Defined.

(** ** Mappings built by a comprehension *)

Section Items.

Lemma assign_items_named (items : list (string * value)) :
  forall acc, named acc -> named (assign_items items acc).
Proof.
  induction items as [|kv items IH]; intros acc Hacc; simpl; [assumption|].
  apply IH. now apply dict_set_named.
Qed.

Lemma assign_items_NoDup (items : list (string * value)) :
  forall acc, named acc -> NoDup (map fst acc) ->
              NoDup (map fst (assign_items items acc)).
Proof.
  induction items as [|kv items IH]; intros acc Hacc Hnd; simpl; [assumption|].
  apply IH; [now apply dict_set_named | now apply dict_set_NoDup].
Qed.

Lemma assign_items_keys (items : list (string * value)) :
  forall acc, named acc ->
  forall k, In k (map fst (assign_items items acc))
            <-> In k (map fst acc) \/ exists kv, In kv items /\ k = VStr (fst kv).
Proof.
  induction items as [|kv items IH]; intros acc Hacc k; simpl.
  - split; [tauto | intros [H|[kv [[] _]]]; exact H].
  - rewrite IH by now apply dict_set_named.
    rewrite dict_set_keys by assumption.
    split.
    + intros [[H|H]|[m [Hm Hk]]]; eauto.
    + intros [H|[m [[<-|Hm] Hk]]]; eauto.
Qed.

Lemma assign_items_untouched (name : string) (items : list (string * value)) :
  ~ In name (map fst items) ->
  forall acc, named acc ->
    dict_find (VStr name) (assign_items items acc) = dict_find (VStr name) acc.
Proof.
  induction items as [|[k v] items IH]; intros Hnot acc Hacc; simpl; [reflexivity|].
  rewrite IH; [| intros Hin; apply Hnot; now right | now apply dict_set_named].
  rewrite dict_find_set by assumption. cbn [fst snd].
  destruct (String.eqb_spec k name) as [->|]; [|reflexivity].
  exfalso. apply Hnot. now left.
Qed.

Lemma assign_items_last (before after : list (string * value))
    (name : string) (v : value) :
  ~ In name (map fst after) ->
  dict_find (VStr name) (assign_items (before ++ (name, v) :: after) [])
  = Some v.
Proof.
  intros Hlast. unfold assign_items. rewrite fold_left_app. cbn [fold_left fst snd].
  fold (assign_items before []).
  fold (assign_items after (dict_set (VStr name) v (assign_items before []))).
  assert (Hnamed : named (assign_items before [])) by apply assign_items_named, named_nil.
  rewrite assign_items_untouched by (try assumption; now apply dict_set_named).
  rewrite dict_find_set by assumption. now rewrite String.eqb_refl.
Qed.

Lemma assign_items_length (items : list (string * value)) :
  (List.length (assign_items items []) <= List.length items)%nat.
Proof.
  rewrite <- (length_map fst), <- (length_map (fun kv => VStr (fst kv)) items).
  apply NoDup_incl_length.
  - apply assign_items_NoDup; [apply named_nil | constructor].
  - intros k Hk. apply assign_items_keys in Hk; [|apply named_nil].
    destruct Hk as [[]|[kv [Hkv ->]]].
    now apply (in_map (fun kv => VStr (fst kv))).
Qed.

Lemma comprehension_of_items (T : Type) (enc : T -> value)
    (name : T -> string) (val : T -> value)
    (key_of value_of : value -> outcome value) (ts : list T) :
  (forall t, key_of (enc t) = Ok (VStr (name t))) ->
  (forall t, value_of (enc t) = Ok (val t)) ->
  forall acc,
    dict_comprehension key_of value_of (map enc ts) acc
    = Ok (assign_items (map (fun t => (name t, val t)) ts) acc).
Proof.
  intros Hkey Hval. induction ts as [|t ts IH]; intros acc; [reflexivity|].
  simpl. rewrite Hkey, Hval. simpl. apply IH.
Qed.

End Items.

(** X13. The choices of the selectbox are keyed by description: each
    description of the results is offered once, and when several records share a description the one the
    selection reaches is the last of them; the earlier ones cannot be
    selected. *)
Theorem food_choices_by_description (rs : list FoodRecord) :
  exists food_choices,
    dict_comprehension (fun f => py_getitem f "description") (fun f => Ok f)
                       (map food_json rs) []
    = Ok food_choices /\
    NoDup (map fst food_choices) /\
    (List.length food_choices <= List.length rs)%nat /\
    (forall k, In k (map fst food_choices)
               <-> exists r, In r rs /\ k = VStr (description r)) /\
    (forall before r after,
        rs = (before ++ r :: after)%list ->
        ~ In (description r) (map description after) ->
        dict_getitem (VStr (description r)) food_choices = Ok (food_json r)).
Proof.
  exists (assign_items (map (fun r => (description r, food_json r)) rs) []).
  split; [|split; [|split; [|split]]].
  - now apply (comprehension_of_items FoodRecord food_json description food_json).
  - apply assign_items_NoDup; [apply named_nil | constructor].
  - pose proof (assign_items_length (map (fun r => (description r, food_json r)) rs))
      as Hlen.
    now rewrite length_map in Hlen.
  - intros k. rewrite assign_items_keys by apply named_nil. split.
    + intros [[]|[kv [Hkv ->]]]. apply in_map_iff in Hkv.
      destruct Hkv as [r [<- Hr]]. now exists r.
    + intros [r [Hr ->]]. right. exists (description r, food_json r).
      split; [|reflexivity].
      now apply (in_map (fun r => (description r, food_json r))).
  - intros before r after -> Hlast.
    unfold dict_getitem. cbn [hashable].
    rewrite map_app. cbn [map].
    rewrite assign_items_last; [reflexivity|].
    now rewrite map_map.
Qed.

(** ** From the extracted nutrients to the chart *)

Lemma blocks_of_one_row (selected_food : value) (nutrients : dict) :
  flat_map (block [selected_food]) (map (fun kv => (fst kv, [snd kv])) nutrients)
  = map (nutrient_row selected_food) nutrients.
Proof.
  induction nutrients as [|[k v] nutrients IH]; [reflexivity|].
  simpl. f_equal. exact IH.
Qed.

Lemma nutrition_frame_chart
    (nutrients : dict) (selected_food : value) (g : globals) :
  (forall kv, In kv nutrients ->
              key_eqb (fst kv) (VStr "index") = false /\
              key_eqb (fst kv) (VStr "Food") = false /\
              key_eqb (fst kv) (VStr "Amount") = false) ->
  exists df,
    nutrition_frame nutrients selected_food = Ok df /\
    melt df "Food" "Amount" = Ok (map (nutrient_row selected_food) nutrients) /\
    forall env,
      run env (plot_nutrition df g) = (Ok tt, g) /\
      trace env (plot_nutrition df g)
      = [ShownChart (bar_chart (map (nutrient_row selected_food) nutrients))].
Proof.
  intros Hnames.
  set (columns := map (fun kv => (fst kv, [snd kv])) nutrients).
  assert (Hcols : forall c, In c columns ->
                            key_eqb (fst c) (VStr "index") = false /\
                            key_eqb (fst c) (VStr "Food") = false /\
                            key_eqb (fst c) (VStr "Amount") = false).
  { intros c Hc. apply in_map_iff in Hc. destruct Hc as [kv [<- Hkv]].
    now apply Hnames. }
  assert (Hframe : nutrition_frame nutrients selected_food
                   = Ok ((VStr "Food", [selected_food]) :: columns)).
  { unfold nutrition_frame. fold columns. unfold has_column.
    rewrite existsb_none by (intros c Hc; now apply Hcols).
    cbn [negb map fst snd]. change (key_eqb (VStr "index") (VStr "index")) with true.
    cbn iota. do 2 f_equal.
    rewrite <- (map_id columns) at 2. apply map_ext_in.
    intros [k cells] Hc. pose proof (proj1 (Hcols _ Hc)) as Hk.
    cbn [fst snd] in *. now rewrite Hk. }
  assert (Hmelt : melt ((VStr "Food", [selected_food]) :: columns) "Food" "Amount"
                  = Ok (map (nutrient_row selected_food) nutrients)).
  { pose proof (melt_wide [] columns [selected_food]) as Hwide.
    cbn [app] in Hwide. rewrite Hwide.
    - unfold columns. now rewrite blocks_of_one_row.
    - intros c Hc. destruct (Hcols c Hc) as [_ H]. exact H. }
  eexists. split; [exact Hframe|]. split; [exact Hmelt|].
  intros env. unfold plot_nutrition, bind, lift. rewrite Hmelt.
  cbn [pbind fst snd]. rewrite run_shown, trace_trigger. split; reflexivity.
Qed.

Lemma rows_of_nutrients (selected_food : value) (nutrients : dict) :
  map Food (map (nutrient_row selected_food) nutrients)
  = map (fun _ => selected_food) nutrients /\
  map Nutrient (map (nutrient_row selected_food) nutrients) = map fst nutrients /\
  map Amount (map (nutrient_row selected_food) nutrients) = map snd nutrients.
Proof. rewrite !map_map. repeat split. Qed.

(** X14. The frame built from the extracted nutrients (names that are
    distinct strings, values that are numbers) has the column "Food"
    followed by one column per nutrient, and one row; reshaped, it gives
    the chart one bar per nutrient, in the order of the mapping, each with
    the selected food and the nutrient's name.  The amounts of the bars are
    the nutrients' values when these are all floats or all 64-bit integers
    (a mixed table is stacked under one dtype, which the statement leaves
    open).  This holds when no nutrient is called "index", "Food" or
    "Amount", the labels the reshaping uses itself. *)
Theorem nutrition_chart_rows
    (items : list (string * number)) (selected_food : string) (g : globals) :
  let nutrients := map (fun kv => (VStr (fst kv), number_value (snd kv))) items in
  NoDup (map fst items) ->
  (forall kv, In kv items ->
              fst kv <> "index" /\ fst kv <> "Food" /\ fst kv <> "Amount") ->
  exists df rows,
    nutrition_frame nutrients (VStr selected_food) = Ok df /\
    map fst df = VStr "Food" :: map fst nutrients /\
    Forall (fun c => List.length (snd c) = 1%nat) df /\
    melt df "Food" "Amount" = Ok rows /\
    map Food rows = map (fun _ => VStr selected_food) items /\
    map Nutrient rows = map fst nutrients /\
    (uniform (map snd nutrients) -> map Amount rows = map snd nutrients) /\
    forall env,
      run env (plot_nutrition df g) = (Ok tt, g) /\
      trace env (plot_nutrition df g) = [ShownChart (bar_chart rows)].
Proof.
  intros nutrients _ Hnames.
  assert (Hplain : forall kv, In kv nutrients ->
                              key_eqb (fst kv) (VStr "index") = false /\
                              key_eqb (fst kv) (VStr "Food") = false /\
                              key_eqb (fst kv) (VStr "Amount") = false).
  { intros kv Hkv. apply in_map_iff in Hkv. destruct Hkv as [[name v] [<- Hkv]].
    destruct (Hnames _ Hkv) as [Hi [Hf Ha]]. cbn [fst snd] in *.
    rewrite !key_eqb_names. repeat split; now apply String.eqb_neq. }
  destruct (nutrition_frame_chart nutrients (VStr selected_food) g Hplain)
    as [df [Hframe [Hmelt Hplot]]].
  destruct (rows_of_nutrients (VStr selected_food) nutrients)
    as [Hfood [Hnutrient Hamount]].
  exists df, (map (nutrient_row (VStr selected_food)) nutrients).
  assert (Hdf : df = (VStr "Food", [VStr selected_food])
                     :: map (fun kv => (fst kv, [snd kv])) nutrients).
  { unfold nutrition_frame in Hframe.
    assert (Hnone : has_column "index" (map (fun kv => (fst kv, [snd kv])) nutrients)
                    = false).
    { unfold has_column. apply existsb_none. intros c Hc.
      apply in_map_iff in Hc. destruct Hc as [kv [<- Hkv]].
      exact (proj1 (Hplain kv Hkv)). }
    rewrite Hnone in Hframe. cbn [negb] in Hframe.
    injection Hframe as <-. cbn [map fst snd].
    change (key_eqb (VStr "index") (VStr "index")) with true. cbn iota.
    f_equal. rewrite map_map. apply map_ext_in. intros kv Hkv. cbn [fst snd].
    now rewrite (proj1 (Hplain kv Hkv)). }
  repeat split.
  - exact Hframe.
  - rewrite Hdf. cbn [map fst]. now rewrite map_map.
  - rewrite Hdf. constructor; [reflexivity|].
    apply Forall_forall. intros c Hc. apply in_map_iff in Hc.
    now destruct Hc as [kv [<- _]].
  - exact Hmelt.
  - rewrite Hfood. unfold nutrients. now rewrite map_map.
  - exact Hnutrient.
  - intros _. exact Hamount.
  - exact (proj1 (Hplot env)).
  - exact (proj2 (Hplot env)).
Qed.

Lemma nutrition_chart_rows_witness :
  exists rows,
    melt [ (VStr "Food", [VStr "Bananas, raw"]);
           (VStr "Energy", [VInt 371]); (VStr "Protein", [VFloat 1.09]) ]
         "Food" "Amount"
    = Ok rows /\
    map Food rows = [VStr "Bananas, raw"; VStr "Bananas, raw"] /\
    map Nutrient rows = [VStr "Energy"; VStr "Protein"].
Proof.
  destruct (nutrition_chart_rows
              [("Energy", NInt 371); ("Protein", NFloat 1.09)]
              "Bananas, raw" (module_state None None))
    as [df [rows [Hframe [_ [_ [Hmelt [Hfood [Hnutrient _]]]]]]]].
  - repeat constructor; simpl; intuition discriminate.
  - simpl. intros kv [<-|[<-|[]]]; repeat split; discriminate.
  - injection Hframe as <-. exists rows. repeat split; assumption.
Defined.

(** ** Records that are not as documented *)

Lemma dict_comprehension_entries key_of val_of (items : list value) :
  forall acc d,
    dict_comprehension key_of val_of items acc = Ok d ->
    forall i, In i items ->
      exists k v, key_of i = Ok k /\ val_of i = Ok v /\ hashable k = true.
Proof.
  induction items as [|i0 items IH]; intros acc d Hd i Hi; [destruct Hi|].
  simpl in Hd.
  destruct (key_of i0) as [k|] eqn:Hk; [|discriminate]. simpl in Hd.
  destruct (val_of i0) as [v|] eqn:Hv; [|discriminate]. simpl in Hd.
  unfold dict_setitem in Hd.
  destruct (hashable k) eqn:Hh; [|discriminate]. simpl in Hd.
  destruct Hi as [<-|Hi].
  - now exists k, v.
  - exact (IH _ _ Hd i Hi).
Qed.

(** X15. The extraction skips nothing: when it returns a mapping for a
    record with a list of nutrients, every one of the first five entries
    had both a "nutrientName" and a "value", and a hashable name.  An entry
    without one of them makes the whole extraction raise. *)
Theorem extract_nutrients_needs_both_fields
    (food_data : value) (entries : list value) (d : dict) :
  py_getitem food_data "foodNutrients" = Ok (VList entries) ->
  extract_nutrients food_data = Ok d ->
  forall n, In n (firstn 5 entries) ->
    exists k v, py_getitem n "nutrientName" = Ok k /\ py_getitem n "value" = Ok v
                /\ hashable k = true.
Proof.
  intros Hentries. unfold extract_nutrients. rewrite Hentries.
  cbn [obind py_slice_to py_iter]. apply dict_comprehension_entries.
Qed.

Lemma extract_nutrients_needs_both_fields_witness :
  exists k v,
    py_getitem (entry_json {| nutrientName := "Energy"; nutrient_value := NInt 89 |})
               "nutrientName" = Ok k
    /\ py_getitem (entry_json {| nutrientName := "Energy"; nutrient_value := NInt 89 |})
                  "value" = Ok v
    /\ hashable k = true.
Proof.
  apply (extract_nutrients_needs_both_fields (food_json banana)
           (map entry_json (foodNutrients banana))
           (assign_all (firstn 5 (foodNutrients banana)) [])).
  - reflexivity.
  - reflexivity.
  - simpl. tauto.
Defined.

Lemma comprehension_stops_at_missing_field
    (documented : list NutrientEntry) (entry : dict) (tail : list value) :
  dict_find (VStr "nutrientName") entry = None
  \/ dict_find (VStr "value") entry = None ->
  forall acc,
    exists x,
      dict_comprehension (fun n => py_getitem n "nutrientName")
                         (fun n => py_getitem n "value")
                         (map entry_json documented ++ VDict entry :: tail)%list acc
      = Err x
      /\ exn_type x = KeyError.
Proof.
  intros Hmissing. induction documented as [|n0 ns IH]; intros acc.
  - cbn [map app dict_comprehension py_getitem].
    unfold dict_getitem. cbn [hashable].
    destruct Hmissing as [Hname|Hvalue].
    + rewrite Hname. eexists. split; reflexivity.
    + rewrite Hvalue.
      destruct (dict_find (VStr "nutrientName") entry);
        eexists; split; reflexivity.
  - change (map entry_json (n0 :: ns) ++ VDict entry :: tail)%list
      with (entry_json n0 :: (map entry_json ns ++ VDict entry :: tail))%list.
    cbn [dict_comprehension].
    change (py_getitem (entry_json n0) "nutrientName")
      with (@Ok value (VStr (nutrientName n0))).
    change (py_getitem (entry_json n0) "value")
      with (@Ok value (number_value (nutrient_value n0))).
    cbn [obind dict_setitem hashable]. apply IH.
Qed.

(** X16. Only the first five entries are read.  An entry among them that
    is an object without "value", or without "nutrientName", raises a
    [KeyError] even when the entries before it are as documented; from the
    sixth entry on, anything may stand in the list. *)
Theorem extract_nutrients_missing_field
    (food_data : value) (documented : list NutrientEntry) (entry : dict)
    (rest : list value) :
  py_getitem food_data "foodNutrients"
  = Ok (VList (map entry_json documented ++ VDict entry :: rest)%list) ->
  dict_find (VStr "nutrientName") entry = None
  \/ dict_find (VStr "value") entry = None ->
  ((List.length documented < 5)%nat ->
   exists x, extract_nutrients food_data = Err x /\ exn_type x = KeyError)
  /\ ((5 <= List.length documented)%nat ->
      extract_nutrients food_data = Ok (assign_all (firstn 5 documented) [])).
Proof.
  intros Hentries Hmissing. unfold extract_nutrients. rewrite Hentries.
  cbn [obind py_slice_to py_iter]. split; intros Hlen.
  - rewrite firstn_app, firstn_all2 by (rewrite length_map; lia).
    rewrite length_map.
    destruct (5 - List.length documented)%nat as [|m] eqn:Hm; [lia|].
    rewrite firstn_cons. now apply comprehension_stops_at_missing_field.
  - rewrite firstn_app.
    replace (5 - List.length (map entry_json documented))%nat with 0%nat
      by (rewrite length_map; lia).
    rewrite firstn_O, app_nil_r, firstn_map.
    apply comprehension_of_entries.
Qed.

Lemma extract_nutrients_missing_field_witness :
  exists x,
    extract_nutrients
      (VDict [(VStr "foodNutrients",
               VList [ entry_json {| nutrientName := "Energy"; nutrient_value := NInt 89 |};
                       VDict [(VStr "nutrientName", VStr "Protein")] ])])
    = Err x
    /\ exn_type x = KeyError.
Proof.
  refine (proj1 (extract_nutrients_missing_field
                   (VDict [(VStr "foodNutrients",
                            VList [ entry_json {| nutrientName := "Energy";
                                                  nutrient_value := NInt 89 |};
                                    VDict [(VStr "nutrientName", VStr "Protein")] ])])
                   [ {| nutrientName := "Energy"; nutrient_value := NInt 89 |} ]
                   [(VStr "nutrientName", VStr "Protein")] [] eq_refl
                   (or_intror eq_refl)) _).
  simpl. lia.
Defined.

(** ** The Food Insights tab, end to end *)

Lemma run_lift (env : environment) {A} (o : outcome A) (g : globals) :
  run env (lift o g) = (o, g).
Proof. reflexivity. Qed.

Lemma trace_lift (env : environment) {A} (o : outcome A) (g : globals) :
  trace env (lift o g) = [].
Proof. reflexivity. Qed.

Lemma assign_all_plain_names (es : list NutrientEntry) :
  (forall n, In n es ->
             nutrientName n <> "index" /\ nutrientName n <> "Food"
             /\ nutrientName n <> "Amount") ->
  forall kv, In kv (assign_all es []) ->
             key_eqb (fst kv) (VStr "index") = false /\
             key_eqb (fst kv) (VStr "Food") = false /\
             key_eqb (fst kv) (VStr "Amount") = false.
Proof.
  intros Hnames kv Hkv.
  assert (Hkey : In (fst kv) (map fst (assign_all es []))) by now apply in_map.
  apply assign_all_keys in Hkey; [|apply named_nil].
  destruct Hkey as [[]|[n [Hn ->]]].
  destruct (Hnames n Hn) as [Hi [Hf Ha]].
  rewrite !key_eqb_names. repeat split; now apply String.eqb_neq.
Qed.

Ltac bind_ok H :=
  rewrite (run_bind_ok _ _ _ _ _ _ H), (trace_bind_ok _ _ _ _ _ _ H).

(** X17. The Food Insights tab, when all goes as documented: a non-empty
    query, a lookup that returns food records, a selection among the
    descriptions offered (here of a record that is the last of its
    description), nutrient names other than the labels the chart uses, and
    a completion service that answers or fails with an [Exception].  Then
    the tab raises nothing, makes one request to each service, and shows in
    this order the count of results, the nutrients of the first five
    entries of the selected record, the insight written from those
    nutrients (or the error text in its place), and a chart with one bar
    per extracted nutrient, in the order of the mapping, each with the
    selected description and the nutrient's name; the amounts of the bars
    are the extracted values when these are all floats or all 64-bit
    integers. *)
Theorem food_tab_shows_insights
    (py_str : value -> string) (env : environment) (g : globals)
    (before after : list FoodRecord) (r : FoodRecord) :
  let food_query := env _ (st_text_input "Enter a food item:" "") in
  let rs := (before ++ r :: after)%list in
  let food_choices := assign_items (map (fun r => (description r, food_json r)) rs) [] in
  let nutrients := assign_all (firstn 5 (foodNutrients r)) [] in
  let prompt :=
    "Give me a quick analysis of " ++ py_str (VStr (description r))
    ++ " with these nutrients: " ++ py_str (VDict nutrients) in
  food_query <> "" ->
  fst (run env (search_food_usda food_query g)) = Ok (VList (map food_json rs)) ->
  env _ (st_selectbox "Select a food:" (map fst food_choices))
  = VStr (description r) ->
  description r <> "" ->
  ~ In (description r) (map description after) ->
  (forall n, In n (firstn 5 (foodNutrients r)) ->
             nutrientName n <> "index" /\ nutrientName n <> "Food"
             /\ nutrientName n <> "Amount") ->
  (forall e, env _ (chat_completions_create (insight_request prompt)) = Err e ->
             is_Exception (exn_type e) = true) ->
  exists rows,
    map Food rows = map (fun _ => VStr (description r)) nutrients /\
    map Nutrient rows = map fst nutrients /\
    (uniform (map snd nutrients) -> map Amount rows = map snd nutrients) /\
    run env (food_tab py_str g) = (Ok tt, g) /\
    trace env (food_tab py_str g)
    = [ Fetched (usda_url food_query (USDA_API_KEY g));
        ShownSuccess ("Found " ++ py_str (VInt (Z.of_nat (List.length rs)))
                      ++ " results for **" ++ food_query ++ "**");
        ShownText (VStr "### Nutrition Info");
        ShownJson (VDict nutrients);
        Asked (insight_request prompt);
        ShownSubheader "🤖 AI Insights";
        ShownText (insight_text
                     (env _ (chat_completions_create (insight_request prompt))));
        ShownChart (bar_chart rows) ].
Proof.
  intros food_query rs food_choices nutrients prompt
         Hquery Hfoods Hselected Hdescription Hlast Hnames Hfail.
  exists (map (nutrient_row (VStr (description r))) nutrients).
  destruct (rows_of_nutrients (VStr (description r)) nutrients)
    as [Hfood [Hnutrient Hamount]].
  split; [exact Hfood|]. split; [exact Hnutrient|]. split; [intros _; exact Hamount|].
  pose proof (search_food_usda_run env food_query g) as Hsearch.
  rewrite Hfoods in Hsearch.
  pose proof (get_ai_insight_run env prompt g Hfail) as Hinsight.
  destruct (nutrition_frame_chart nutrients (VStr (description r)) g
              (assign_all_plain_names _ Hnames)) as [df [Hframe [_ Hplot]]].
  destruct (Hplot env) as [Hplot_run Hplot_trace].
  assert (Hchoices :
            dict_comprehension (fun f => py_getitem f "description") (fun f => Ok f)
                               (map food_json rs) [] = Ok food_choices)
    by now apply (comprehension_of_items FoodRecord food_json description food_json).
  assert (Hdata : dict_getitem (VStr (description r)) food_choices = Ok (food_json r)).
  { unfold dict_getitem, food_choices, rs. cbn [hashable].
    rewrite map_app. cbn [map].
    rewrite assign_items_last; [reflexivity | now rewrite map_map]. }
  unfold food_tab.
  bind_ok (run_trigger env (st_text_input "Enter a food item:" "") g).
  rewrite trace_trigger. cbn [observe app]. fold food_query.
  rewrite (nonempty_is_truthy food_query Hquery).
  bind_ok Hsearch. rewrite search_food_usda_trace.
  assert (Htruthy : truthy (VList (map food_json rs)) = true).
  { unfold rs. rewrite map_app. now destruct (map food_json before). }
  rewrite Htruthy.
  cbn [py_len py_iter]. rewrite length_map.
  bind_ok (run_lift env (Ok (Z.of_nat (List.length rs))) g). rewrite trace_lift.
  bind_ok (run_trigger env
             (st_success ("Found " ++ py_str (VInt (Z.of_nat (List.length rs)))
                          ++ " results for **" ++ food_query ++ "**")) g).
  rewrite trace_trigger.
  bind_ok (run_lift env (Ok (map food_json rs)) g). rewrite trace_lift.
  rewrite Hchoices.
  bind_ok (run_lift env (Ok food_choices) g). rewrite trace_lift.
  bind_ok (run_trigger env (st_selectbox "Select a food:" (map fst food_choices)) g).
  rewrite trace_trigger, Hselected.
  rewrite (nonempty_is_truthy _ Hdescription).
  rewrite Hdata.
  bind_ok (run_lift env (Ok (food_json r)) g). rewrite trace_lift.
  rewrite extract_nutrients_of_record. fold nutrients.
  bind_ok (run_lift env (Ok nutrients) g). rewrite trace_lift.
  bind_ok (run_trigger env (st_write (VStr "### Nutrition Info")) g).
  rewrite trace_trigger.
  bind_ok (run_trigger env (st_json (VDict nutrients)) g).
  rewrite trace_trigger. fold prompt.
  bind_ok Hinsight. rewrite get_ai_insight_trace.
  bind_ok (run_trigger env (st_subheader "🤖 AI Insights") g).
  rewrite trace_trigger.
  bind_ok (run_trigger env
             (st_write (insight_text
                          (env _ (chat_completions_create (insight_request prompt))))) g).
  rewrite trace_trigger, Hframe.
  bind_ok (run_lift env (Ok df) g). rewrite trace_lift.
  rewrite Hplot_run, Hplot_trace.
  split; reflexivity.
Qed.

Lemma food_tab_shows_insights_witness :
  run (browsing "banana"
         (Ok {| status_code := 200;
                json := Ok (VDict [(VStr "foods", VList [food_json banana])]) |})
         (Ok {| choices := [ {| message_content := VStr "Rich in potassium." |} ] |})
         (VStr "Bananas, raw"))
      (food_tab (fun _ => "?") (module_state None None))
  = (Ok tt, module_state None None).
Proof.
  destruct (food_tab_shows_insights (fun _ => "?")
              (browsing "banana"
                 (Ok {| status_code := 200;
                        json := Ok (VDict [(VStr "foods",
                                            VList [food_json banana])]) |})
                 (Ok {| choices := [ {| message_content :=
                                          VStr "Rich in potassium." |} ] |})
                 (VStr "Bananas, raw"))
              (module_state None None) [] [] banana)
    as [rows [_ [_ [_ [Hrun _]]]]].
  - discriminate.
  - reflexivity.
  - reflexivity.
  - discriminate.
  - intros [].
  - simpl. intros n [<-|[<-|[<-|[<-|[<-|[]]]]]]; repeat split; discriminate.
  - intros e He. discriminate He.
  - exact Hrun.
Defined.

(** ** The estimate against the exact formula *)

Lemma half_even_shift_spec (a n : Z) :
  0 <= n -> half_even_shift a n = Float64.div_half_even a (2 ^ n).
Proof.
  intros Hn. unfold half_even_shift, Float64.div_half_even.
  now rewrite Z.shiftr_div_pow2, Z.land_ones, Z.shiftl_mul_pow2, Z.mul_1_l by assumption.
Qed.

Lemma cents_by_shift_spec (x : float) : cents_by_shift x = cents_of x.
Proof.
  unfold cents_by_shift, cents_of, Float64.hundredths.
  destruct (Prim2SF x) as [| | |[|] m e]; try reflexivity.
  destruct (0 <=? e) eqn:He; [reflexivity|].
  apply Z.leb_gt in He. now rewrite half_even_shift_spec by lia.
Qed.

Lemma hundredths_nonneg (m : positive) (e : Z) : 0 <= Float64.hundredths m e.
Proof.
  unfold Float64.hundredths. destruct (0 <=? e) eqn:He.
  - apply Z.leb_le in He. pose proof (Z.pow_nonneg 2 e). nia.
  - apply Z.leb_gt in He. unfold Float64.div_half_even.
    assert (Hpow : 0 < 2 ^ (- e)) by (apply Z.pow_pos_nonneg; lia).
    assert (Hq : 0 <= Z.pos m * 100 / 2 ^ (- e)) by (apply Z.div_pos; lia).
    destruct (2 * ((Z.pos m * 100) mod 2 ^ (- e)) ?= 2 ^ (- e));
      try destruct (Z.even _); lia.
Qed.

Lemma round2_of_cents (x : float) (k : Z) :
  cents_of x = Some k -> Float64.round2 x = decimal k 100.
Proof.
  unfold cents_of, Float64.round2.
  destruct (Prim2SF x) as [| | |[|] m e]; try discriminate.
  intros [= <-]. pose proof (hundredths_nonneg m e) as Hk.
  destruct (Float64.hundredths m e); [reflexivity | reflexivity | lia].
Qed.

Lemma all_near_checked : all_near_on met_floats weights durations = true.
Proof. vm_compute. reflexivity. Qed.

Lemma in_zrange (lo z : Z) (n : nat) :
  lo <= z < lo + Z.of_nat n -> In z (zrange lo n).
Proof.
  intros Hz. unfold zrange.
  replace z with (lo + Z.of_nat (Z.to_nat (z - lo))) by lia.
  apply (in_map (fun i => lo + Z.of_nat i)), in_seq. lia.
Qed.

Lemma all_near_on_spec (mets : list (float * Z)) (ws ds : list (Z * outcome float)) :
  all_near_on mets ws ds = true ->
  forall met w d, In met mets -> In w ws -> In d ds ->
                  near (fst met) (snd met) w d = true.
Proof.
  unfold all_near_on. intros Hall met w d Hmet Hw Hd.
  rewrite forallb_forall in Hall. specialize (Hall met Hmet).
  rewrite forallb_forall in Hall. specialize (Hall w Hw).
  rewrite forallb_forall in Hall. exact (Hall d Hd).
Qed.

Lemma near_everywhere (name : string) (met10 w d : Z) :
  In (name, met10) EXERCISE_MET_tenths ->
  30 <= w <= 200 -> 5 <= d <= 300 ->
  exists wf df k,
    Float64.of_int w = Ok wf /\ Float64.of_int d = Ok df /\
    cents_of (decimal met10 10 * 3.5 * wf / 200 * df)%float = Some k /\
    Z.abs (200 * k - formula_x20000 met10 w d) <= 100.
Proof.
  intros Hin Hw Hd.
  assert (Hmet : In (decimal met10 10, met10) met_floats).
  { apply (in_map (fun met10 => (decimal met10 10, met10))).
    simpl in Hin.
    repeat (destruct Hin as [[= <- <-]|Hin]; [simpl; tauto|]). contradiction. }
  assert (Hws : In (w, Float64.of_int w) weights).
  { apply (in_map (fun z => (z, Float64.of_int z))), in_zrange. lia. }
  assert (Hds : In (d, Float64.of_int d) durations).
  { apply (in_map (fun z => (z, Float64.of_int z))), in_zrange. lia. }
  pose proof (all_near_on_spec met_floats weights durations all_near_checked
                (decimal met10 10, met10) (w, Float64.of_int w)
                (d, Float64.of_int d) Hmet Hws Hds) as Hcase.
  unfold near in Hcase. cbn [fst snd] in Hcase.
  destruct (Float64.of_int w) as [wf|]; [|discriminate].
  destruct (Float64.of_int d) as [df|]; [|discriminate].
  rewrite cents_by_shift_spec in Hcase.
  destruct (cents_of _) as [k|] eqn:Hk; [|discriminate].
  exists wf, df, k. repeat split; trivial. now apply Z.leb_le.
Qed.

Lemma EXERCISE_MET_tenths_agree :
  map (fun nt => (VStr (fst nt), VFloat (decimal (snd nt) 10))) EXERCISE_MET_tenths
  = EXERCISE_MET_table.
Proof. vm_compute. reflexivity. Qed.

Lemma nearest_hundredth (n k : Z) :
  Z.abs (200 * k - n) <= 100 -> n mod 200 <> 100 ->
  k = half_even_hundredths n /\ k = half_up_hundredths n.
Proof.
  intros Hnear Htie.
  unfold half_even_hundredths, half_up_hundredths, Float64.div_half_even.
  pose proof (Z.div_mod n 200 ltac:(lia)) as Hn.
  pose proof (Z.mod_pos_bound n 200 ltac:(lia)) as Hr.
  split.
  - destruct (Z.compare_spec (2 * (n mod 200)) 200) as [Heq|Hlt|Hgt]; lia.
  - apply (Z.div_unique (n + 100) 200 k (n + 100 - 200 * k)); lia.
Qed.

Lemma estimate_near_exact
    (usda openai : option string) (name : string) (met10 w d : Z) :
  In (name, met10) EXERCISE_MET_tenths ->
  30 <= w <= 200 ->
  5 <= d <= 300 ->
  exists k,
    calculate_calories_burned (VInt w) (VStr name) (VInt d)
                              (module_state usda openai)
    = Ret (Ok (VFloat (decimal k 100)), module_state usda openai)
    /\ Z.abs (200 * k - formula_x20000 met10 w d) <= 100
    /\ (formula_x20000 met10 w d mod 200 <> 100 ->
        k = half_even_hundredths (formula_x20000 met10 w d)
        /\ k = half_up_hundredths (formula_x20000 met10 w d)).
Proof.
  intros Hin Hw Hd.
  destruct (near_everywhere name met10 w d Hin Hw Hd)
    as [wf [df [k [Hwf [Hdf [Hk Hnear]]]]]].
  exists k. split; [|split; [exact Hnear | now apply nearest_hundredth]].
  assert (Htable : In (VStr name, VFloat (decimal met10 10)) EXERCISE_MET_table).
  { rewrite <- EXERCISE_MET_tenths_agree.
    now apply (in_map (fun nt => (VStr (fst nt), VFloat (decimal (snd nt) 10)))) in Hin. }
  rewrite (calculate_calories_burned_known _ _ _ _ _ _ Htable).
  rewrite (met_formula_numbers _ wf df) by assumption.
  now rewrite (round2_of_cents _ k Hk).
Qed.




(** ** The Exercise Tracker tab *)

Lemma EXERCISE_MET_option_tenths (k : value) :
  In k (map fst EXERCISE_MET_table) ->
  exists name met10, k = VStr name /\ In (name, met10) EXERCISE_MET_tenths.
Proof.
  simpl. intros H.
  repeat (destruct H as [<-|H];
          [do 2 eexists; split; [reflexivity | simpl; tauto]|]).
  contradiction.
Qed.

(** X9. In the Exercise Tracker tab, when the widgets answer within their
    bounds and the exercise is one of the options offered, nothing raises:
    without a press of the button only the heading is shown; with a press
    the success message carries the estimate for the answers, a number of
    hundredths within half a hundredth of the exact value of the formula,
    so the 0 of an unknown exercise cannot appear.  No service is called
    and the module state is as before. *)
Theorem exercise_tab_shows_estimate
    (py_str : value -> string) (env : environment) (usda openai : option string) :
  let g := module_state usda openai in
  let weight := env _ (st_number_input "Enter your weight (kg):" 30 200 70) in
  let exercise := env _ (st_selectbox "Select exercise:" (map fst EXERCISE_MET_table)) in
  let duration := env _ (st_number_input "Duration (minutes):" 5 300 30) in
  30 <= weight <= 200 ->
  5 <= duration <= 300 ->
  In exercise (map fst EXERCISE_MET_table) ->
  exists name met10 k,
    exercise = VStr name /\ In (name, met10) EXERCISE_MET_tenths /\
    Z.abs (200 * k - formula_x20000 met10 weight duration) <= 100 /\
    run env (exercise_tab py_str g) = (Ok tt, g) /\
    trace env (exercise_tab py_str g)
    = ShownText (VStr "### Track Your Exercise")
      :: if env _ (st_button "Calculate Calories Burned")
         then [ShownSuccess
                 ("🔥 You burned approximately **"
                  ++ py_str (VFloat (decimal k 100))
                  ++ " calories** doing " ++ py_str (VStr name) ++ " for "
                  ++ py_str (VInt duration) ++ " minutes.")]
         else [].
Proof.
  intros g weight exercise duration Hw Hd Hex.
  destruct (EXERCISE_MET_option_tenths exercise Hex) as [name [met10 [Hname Hin]]].
  destruct (estimate_near_exact usda openai name met10 weight duration Hin Hw Hd)
    as [k [Hestimate [Hnear _]]].
  exists name, met10, k. repeat (split; [assumption|]).
  unfold exercise_tab, g. step_run.
  cbn [trace observe EXERCISE_MET module_state].
  fold weight duration exercise. rewrite Hname.
  destruct (env bool (st_button "Calculate Calories Burned")).
  - rewrite Hestimate. cbn [pbind run trace observe fst snd].
    split; [|reflexivity].
    match goal with |- context [env unit ?ev] => now destruct (env unit ev) end.
  - split; reflexivity.
Qed.

Lemma exercise_tab_shows_estimate_witness :
  trace (pressing (Err (Exn RequestException "unused")) (Ok {| choices := [] |}))
        (exercise_tab sketch (module_state None None))
  = [ ShownText (VStr "### Track Your Exercise");
      ShownSuccess "🔥 You burned approximately **360.15 calories** doing Running (6 mph) for 30 minutes." ].
Proof.
  destruct (exercise_tab_shows_estimate sketch
              (pressing (Err (Exn RequestException "unused")) (Ok {| choices := [] |}))
              None None)
    as [name [met10 [k [Hname [Hin [Hnear [_ Htrace]]]]]]].
  - simpl. lia.
  - simpl. lia.
  - simpl. tauto.
  - rewrite Htrace. cbn [pressing quiet_environment hd map fst EXERCISE_MET_table] in *.
    injection Hname as <-.
    assert (Hmet : met10 = 98).
    { simpl in Hin.
      repeat (destruct Hin as [Heq|Hin]; [congruence|]).
      contradiction. }
    subst met10.
    assert (Hk : k = 36015) by (unfold formula_x20000 in Hnear; lia).
    subst k. vm_compute. reflexivity.
Defined.
